(** * StreamDetails: the record of [music_assistant_models/streamdetails.py]

    A shallow embedding of the [StreamDetails] dataclass, of the dictionary
    conversion that [DataClassDictMixin] derives from its field declarations,
    of the generated [__init__] and [__eq__], of the [uri] property and of
    [__post_serialize__]. *)

From Stdlib Require Import ZArith Ascii.
From stdpp Require Import base option list strings gmap fin_maps.

Local Open Scope string_scope.

(** ** Python strings *)

Module PyStr.

(** [old in s]. *)
Fixpoint contains (old s : string) : bool :=
  String.prefix old s ||
  match s with
  | EmptyString => false
  | String _ s' => contains old s'
  end.

(** The scan of [s.replace(old, new)] for a non-empty [old]: occurrences are
    taken left to right and do not overlap; [skip] counts the characters of
    a matched occurrence that are still to be dropped. *)
Fixpoint replace_scan (old new : string) (skip : nat) (s : string) : string :=
  match s with
  | EmptyString => EmptyString
  | String c s' =>
      match skip with
      | S k => replace_scan old new k s'
      | O =>
          if String.prefix old s
          then new +:+ replace_scan old new (String.length old - 1) s'
          else String c (replace_scan old new 0 s')
      end
  end.

(** With an empty [old], [new] is put before every character and at the
    end. *)
Fixpoint replace_empty (new s : string) : string :=
  match s with
  | EmptyString => new
  | String c s' => new +:+ String c (replace_empty new s')
  end.

(** [s.replace(old, new)]. *)
Definition replace (old new s : string) : string :=
  match old with
  | EmptyString => replace_empty new s
  | String _ _ => replace_scan old new 0 s
  end.

End PyStr.

(** ** Python objects and exceptions *)

Section Objects.

(** Python floats are only stored and handed on by this module, never
    computed with, so their type is left open; two floats are compared as
    the objects they are. *)
Context {pyfloat : Type}.

(** The objects that a field or a transport mapping can hold. *)
#[warnings="-register-all"]
Inductive value : Type :=
| VNone
| VBool (b : bool)
| VInt (z : Z)
| VFloat (f : pyfloat)
| VStr (s : string)
| VList (l : list value)
| VDict (m : gmap string value)
| VDatetime (t : Z)
| VObject (id : positive).

End Objects.

Arguments value : clear implicits.

(** The exceptions that the modelled code raises. [MissingField] and
    [InvalidFieldValue] are the two decode errors of the dictionary mixin. *)
Inductive exn : Type :=
| TypeError (msg : string)
| KeyError (key : string)
| AttributeError (attr : string)
| MissingField (field : string)
| InvalidFieldValue (field : string).

Definition is_decode_error (e : exn) : bool :=
  match e with
  | MissingField _ | InvalidFieldValue _ => true
  | _ => false
  end.

(** The outcome of a call. [OffType f] is not an exception: the mixin takes
    [str] and [bool] entries of a mapping over unchecked, so on an entry of
    another type Python goes on with an object whose field [f] contradicts
    its declaration. The records of this development are typed as declared
    and have no such inhabitant. *)
Inductive result (A : Type) : Type :=
| Ok (a : A)
| Raise (e : exn)
| OffType (field : string).

Arguments Ok {A} a.
Arguments Raise {A} e.
Arguments OffType {A} field.

Definition is_Ok {A} (r : result A) : Prop := ∃ a, r = Ok a.
Definition is_Raise {A} (r : result A) : Prop := ∃ e, r = Raise e.

#[global] Instance result_ret : MRet result := λ A a, Ok a.
#[global] Instance result_bind : MBind result := λ A B k r,
  match r with
  | Ok a => k a
  | Raise e => Raise e
  | OffType f => OffType f
  end.
#[global] Instance result_fmap : FMap result := λ A B g r,
  match r with
  | Ok a => Ok (g a)
  | Raise e => Raise e
  | OffType f => OffType f
  end.

(** A conversion of field [f] that raises is reported as
    [InvalidFieldValue f]. *)
Definition field_try {A} (f : string) (o : option A) : result A :=
  match o with
  | Some a => Ok a
  | None => Raise (InvalidFieldValue f)
  end.

(** ** String enumerations *)

(** Modelled from the spec: [enums.py] is missing; the enumerations of the
    record are closed string enumerations. [enum_value] is [member.value],
    [enum_members] the iteration over the class. Members with one value are
    one member, and the class has no members but the listed ones. *)
Class StrEnum (E : Type) := {
  enum_eq_dec :: EqDecision E;
  enum_value : E → string;
  enum_members : list E;
  enum_value_inj : ∀ a b, enum_value a = enum_value b → a = b;
  enum_members_all : ∀ e, e ∈ enum_members
}.

(** Modelled from the spec: [enums.py] is missing, and with it what a class
    does with a value of no member; by the spec an enumeration field parses
    from its string value and fails when the value is not a recognized
    member. [enum_lookup s] is [E(s)], [None] where it raises. *)
Definition enum_lookup {E} `{!StrEnum E} (s : string) : option E :=
  List.find (λ e, bool_decide (enum_value e = s)) enum_members.

(** Modelled from the spec: [enums.py] is missing. [MediaType] is a closed
    string enumeration whose member [TRACK], the default of [media_type], has
    the value "track". *)
Class MediaTypeEnum (E : Type) := {
  MediaType_enum :: StrEnum E;
  TRACK : E;
  TRACK_value : enum_value TRACK = "track"
}.

(** Modelled from the spec: [enums.py] is missing. [StreamType] is a closed
    string enumeration with, among others, the members [CUSTOM] (the default
    of [stream_type]), [LOCAL_FILE], [CACHE] (single-file caching) and
    [MULTI_FILE] (on-disk multi-part caching). *)
Class StreamTypeEnum (E : Type) := {
  StreamType_enum :: StrEnum E;
  CUSTOM : E;
  LOCAL_FILE : E;
  CACHE : E;
  MULTI_FILE : E;
  CUSTOM_value : enum_value CUSTOM = "custom";
  LOCAL_FILE_value : enum_value LOCAL_FILE = "local_file";
  CACHE_value : enum_value CACHE = "cache";
  MULTI_FILE_value : enum_value MULTI_FILE = "multi_file"
}.

(** ** Collaborators *)

(** The builtins [int(x)] and [float(x)], [None] where they raise. On an
    object that already is of the type they return it as it is. *)
Class PyNumeric (pyfloat : Type) := {
  py_int : value pyfloat → option Z;
  py_float : value pyfloat → option pyfloat;
  py_int_int : ∀ z, py_int (VInt z) = Some z;
  py_float_float : ∀ f, py_float (VFloat f) = Some f
}.

(** A dataclass with the dictionary mixin. [AudioFormat] and [DSPDetails]
    are declared in [media_items.py] and [dsp.py], which are missing, and are
    taken as parameters: [to_dict_of] is the [to_dict] of the class,
    [from_dict_of] its [from_dict], [None] where that raises. *)
Class DictMixin (pyfloat A : Type) := {
  to_dict_of : A → value pyfloat;
  from_dict_of : value pyfloat → option A
}.

(** [from_dict(to_dict(a))] gives [a] back. *)
Definition round_trips (pyfloat A : Type) `{!DictMixin pyfloat A} : Prop :=
  ∀ a : A, from_dict_of (to_dict_of a) = Some a.

(** ** The record *)

Section StreamDetails.

Context {pyfloat : Type} `{!EqDecision pyfloat} `{!PyNumeric pyfloat}.
Context {AudioFormat DSPDetails : Type}.
Context `{!EqDecision AudioFormat} `{!EqDecision DSPDetails}.
Context `{!DictMixin pyfloat AudioFormat} `{!DictMixin pyfloat DSPDetails}.
Context {MediaType StreamType VolumeNormalizationMode : Type}.
Context `{!MediaTypeEnum MediaType} `{!StreamTypeEnum StreamType}.
Context `{!StrEnum VolumeNormalizationMode}.

Abbreviation pyobj := (value pyfloat).
Abbreviation pydict := (gmap string (value pyfloat)).

(** The fields, in the order of their declaration. The fields that reach the
    client have the type of their annotation. The server-side fields are set
    by [__init__] and by [pass_through] without any check, so they hold
    whatever object they are given. *)
Record StreamDetails : Type := {
  provider : string;
  item_id : string;
  audio_format : AudioFormat;
  media_type : MediaType;
  stream_type : StreamType;
  duration : option Z;
  size : option Z;
  stream_title : option string;
  path : pyobj;
  data : pyobj;
  extra_input_args : pyobj;
  decryption_key : pyobj;
  allow_seek : pyobj;
  can_seek : pyobj;
  enable_cache : pyobj;
  loudness : option pyfloat;
  loudness_album : option pyfloat;
  prefer_album_loudness : bool;
  volume_normalization_mode : option VolumeNormalizationMode;
  volume_normalization_gain_correct : option pyfloat;
  target_loudness : option pyfloat;
  strip_silence_begin : bool;
  strip_silence_end : bool;
  dsp : option (gmap string DSPDetails);
  fade_in : pyobj;
  seek_position : pyobj;
  queue_id : pyobj;
  seconds_streamed : pyobj;
  stream_error : pyobj;
  cache : pyobj;
  created_at : pyobj
}.

(** The keyword arguments of a call [StreamDetails(...)]: [None] is an
    argument that the call does not give. *)
Record kwargs : Type := {
  kw_provider : option string;
  kw_item_id : option string;
  kw_audio_format : option AudioFormat;
  kw_media_type : option MediaType;
  kw_stream_type : option StreamType;
  kw_duration : option (option Z);
  kw_size : option (option Z);
  kw_stream_title : option (option string);
  kw_path : option pyobj;
  kw_data : option pyobj;
  kw_extra_input_args : option pyobj;
  kw_decryption_key : option pyobj;
  kw_allow_seek : option pyobj;
  kw_can_seek : option pyobj;
  kw_enable_cache : option pyobj;
  kw_loudness : option (option pyfloat);
  kw_loudness_album : option (option pyfloat);
  kw_prefer_album_loudness : option bool;
  kw_volume_normalization_mode : option (option VolumeNormalizationMode);
  kw_volume_normalization_gain_correct : option (option pyfloat);
  kw_target_loudness : option (option pyfloat);
  kw_strip_silence_begin : option bool;
  kw_strip_silence_end : option bool;
  kw_dsp : option (option (gmap string DSPDetails));
  kw_fade_in : option pyobj;
  kw_seek_position : option pyobj;
  kw_queue_id : option pyobj;
  kw_seconds_streamed : option pyobj;
  kw_stream_error : option pyobj;
  kw_cache : option pyobj;
  kw_created_at : option pyobj
}.

(** The [__init__] that [@dataclass(kw_only=True)] generates: the three
    fields without a default must be given, every other field takes its
    default when it is not; [now] is the reading of [datetime.now(UTC)] that
    the default factory of [created_at] takes. The class has no
    [__post_init__]. *)
Definition StreamDetails_init (now : Z) (kw : kwargs) : result StreamDetails :=
  match kw_provider kw, kw_item_id kw, kw_audio_format kw with
  | Some p, Some i, Some af =>
      Ok {| provider := p;
            item_id := i;
            audio_format := af;
            media_type := default TRACK (kw_media_type kw);
            stream_type := default CUSTOM (kw_stream_type kw);
            duration := default None (kw_duration kw);
            size := default None (kw_size kw);
            stream_title := default None (kw_stream_title kw);
            path := default VNone (kw_path kw);
            data := default VNone (kw_data kw);
            extra_input_args := default (VList []) (kw_extra_input_args kw);
            decryption_key := default VNone (kw_decryption_key kw);
            allow_seek := default (VBool false) (kw_allow_seek kw);
            can_seek := default (VBool false) (kw_can_seek kw);
            enable_cache := default VNone (kw_enable_cache kw);
            loudness := default None (kw_loudness kw);
            loudness_album := default None (kw_loudness_album kw);
            prefer_album_loudness := default false (kw_prefer_album_loudness kw);
            volume_normalization_mode :=
              default None (kw_volume_normalization_mode kw);
            volume_normalization_gain_correct :=
              default None (kw_volume_normalization_gain_correct kw);
            target_loudness := default None (kw_target_loudness kw);
            strip_silence_begin := default false (kw_strip_silence_begin kw);
            strip_silence_end := default false (kw_strip_silence_end kw);
            dsp := default None (kw_dsp kw);
            fade_in := default (VBool false) (kw_fade_in kw);
            seek_position := default (VInt 0) (kw_seek_position kw);
            queue_id := default VNone (kw_queue_id kw);
            seconds_streamed := default VNone (kw_seconds_streamed kw);
            stream_error := default VNone (kw_stream_error kw);
            cache := default VNone (kw_cache kw);
            created_at := default (VDatetime now) (kw_created_at kw) |}
  | _, _, _ => Raise (TypeError "missing required keyword-only argument")
  end.

(** The fields declared without [compare=False], as the tuple that the
    generated [__eq__] builds. *)
Definition compare_fields (r : StreamDetails) :=
  (provider r, item_id r, audio_format r, media_type r, stream_type r,
   duration r, size r, stream_title r, loudness r, loudness_album r,
   prefer_album_loudness r, volume_normalization_mode r,
   volume_normalization_gain_correct r, target_loudness r,
   strip_silence_begin r, strip_silence_end r, dsp r).

(** [a == b], the [__eq__] that [@dataclass] generates. *)
Definition StreamDetails_eq (a b : StreamDetails) : bool :=
  bool_decide (compare_fields a = compare_fields b).

(** The property [uri]. *)
Definition uri (self : StreamDetails) : string :=
  provider self +:+ "://" +:+ enum_value (media_type self) +:+ "/" +:+ item_id self.

(** [__str__]. *)
Definition StreamDetails_str (self : StreamDetails) : string := uri self.

(** ** Serialization *)

(** What the serializing code works on: the record [self] and the mapping
    that it fills. *)
Record frame : Type := Frame {
  fr_self : StreamDetails;
  fr_dict : pydict
}.

Definition M (A : Type) : Type := frame → result (A * frame).

#[global] Instance M_ret : MRet M := λ A a fr, Ok (a, fr).

#[global] Instance M_bind : MBind M := λ A B k m fr,
  match m fr with
  | Ok (a, fr') => k a fr'
  | Raise e => Raise e
  | OffType f => OffType f
  end.

(** [self.f]. *)
Definition getattr {A} (f : StreamDetails → A) : M A :=
  λ fr, Ok (f (fr_self fr), fr).

(** [d[k] = v]. *)
Definition setitem (k : string) (v : pyobj) : M unit :=
  λ fr, Ok ((), Frame (fr_self fr) (<[k := v]> (fr_dict fr))).

(** [d[k]]. *)
Definition getitem (k : string) : M pyobj :=
  λ fr, match fr_dict fr !! k with
        | Some v => Ok (v, fr)
        | None => Raise (KeyError k)
        end.

(** [v.replace(old, new)]; only a string has the method. *)
Definition call_replace (v : pyobj) (old new : string) : M pyobj :=
  match v with
  | VStr s => mret (VStr (PyStr.replace old new s))
  | _ => λ _, Raise (AttributeError "replace")
  end.

(** [return d]. *)
Definition return_dict : M pydict := λ fr, Ok (fr_dict fr, fr).

Definition pack_opt {A} (pack : A → pyobj) (o : option A) : pyobj :=
  match o with
  | Some a => pack a
  | None => VNone
  end.

(** The packing of the fields that the mixin generates: one entry for every
    field not declared [serialize="omit"], enumerations by their value,
    nested dataclasses by their own [to_dict]. *)
Definition pack_fields : M unit :=
  v ← getattr provider; setitem "provider" (VStr v);;
  v ← getattr item_id; setitem "item_id" (VStr v);;
  v ← getattr audio_format; setitem "audio_format" (to_dict_of v);;
  v ← getattr media_type; setitem "media_type" (VStr (enum_value v));;
  v ← getattr stream_type; setitem "stream_type" (VStr (enum_value v));;
  v ← getattr duration; setitem "duration" (pack_opt VInt v);;
  v ← getattr size; setitem "size" (pack_opt VInt v);;
  v ← getattr stream_title; setitem "stream_title" (pack_opt VStr v);;
  v ← getattr loudness; setitem "loudness" (pack_opt VFloat v);;
  v ← getattr loudness_album; setitem "loudness_album" (pack_opt VFloat v);;
  v ← getattr prefer_album_loudness;
    setitem "prefer_album_loudness" (VBool v);;
  v ← getattr volume_normalization_mode;
    setitem "volume_normalization_mode" (pack_opt (λ e, VStr (enum_value e)) v);;
  v ← getattr volume_normalization_gain_correct;
    setitem "volume_normalization_gain_correct" (pack_opt VFloat v);;
  v ← getattr target_loudness; setitem "target_loudness" (pack_opt VFloat v);;
  v ← getattr strip_silence_begin; setitem "strip_silence_begin" (VBool v);;
  v ← getattr strip_silence_end; setitem "strip_silence_end" (VBool v);;
  v ← getattr dsp;
    setitem "dsp" (pack_opt (λ m, VDict (to_dict_of <$> m)) v).

(** [__post_serialize__(self, d)]. *)
Definition __post_serialize__ : M pydict :=
  v ← getitem "stream_type";
  v ← call_replace v "cache" "local_file";
  setitem "stream_type" v;;
  v ← getitem "stream_type";
  v ← call_replace v "multi_file" "local_file";
  setitem "stream_type" v;;
  return_dict.

(** The body of [to_dict]: the fields are packed into a new mapping, which is
    then handed to [__post_serialize__]. *)
Definition to_dict_body : M pydict := pack_fields;; __post_serialize__.

Definition to_dict_run (self : StreamDetails) : result (pydict * frame) :=
  to_dict_body (Frame self ∅).

(** [self.to_dict()]. *)
Definition to_dict (self : StreamDetails) : result pydict :=
  fst <$> to_dict_run self.

(** ** Deserialization *)

(** The unpacking of a field of an enumeration type: [E(value)]. No member
    has a value that is not a string. *)
Definition unpack_enum {E} `{!StrEnum E} (v : pyobj) : option E :=
  match v with
  | VStr s => enum_lookup s
  | _ => None
  end.

(** The unpacking of [dsp]: [DSPDetails.from_dict] on every value of the
    mapping. *)
Definition unpack_dsp (v : pyobj) : option (gmap string DSPDetails) :=
  match v with
  | VDict m =>
      if bool_decide (map_Forall (λ _ x, is_Some (from_dict_of (A:=DSPDetails) x)) m)
      then Some (omap from_dict_of m)
      else None
  | _ => None
  end.

(** A field without a default: [MissingField] when the mapping has no entry
    for it. *)
Definition required (f : string) (d : pydict) : result pyobj :=
  match d !! f with
  | Some v => Ok v
  | None => Raise (MissingField f)
  end.

(** A field with a default and a type that excludes [None]: the entry, when
    there is one, is converted. *)
Definition defaulted {A} (f : string) (unpack : pyobj → option A) (d : pydict)
  : result (option A) :=
  match d !! f with
  | Some v => Some <$> field_try f (unpack v)
  | None => Ok None
  end.

(** A field of a type [T | None] with a default: [None] is taken over, any
    other entry is converted. *)
Definition optional {A} (f : string) (unpack : pyobj → option A) (d : pydict)
  : result (option (option A)) :=
  match d !! f with
  | Some VNone => Ok (Some None)
  | Some v => (λ a, Some (Some a)) <$> field_try f (unpack v)
  | None => Ok None
  end.

(** The entries that are taken over as they are ([str], [bool]) do have the
    declared type. *)
Definition typed_str (f : string) (v : pyobj) : result string :=
  match v with
  | VStr s => Ok s
  | _ => OffType f
  end.

Definition typed_opt_str (f : string) (o : option pyobj)
  : result (option (option string)) :=
  match o with
  | None => Ok None
  | Some VNone => Ok (Some None)
  | Some (VStr s) => Ok (Some (Some s))
  | Some _ => OffType f
  end.

Definition typed_opt_bool (f : string) (o : option pyobj) : result (option bool) :=
  match o with
  | None => Ok None
  | Some (VBool b) => Ok (Some b)
  | Some _ => OffType f
  end.

(** [StreamDetails.from_dict(d)], as the mixin generates it from the field
    declarations: the conversions are tried field by field, the entries of
    the [pass_through] fields are taken over as they are, and the arguments
    collected are handed to [__init__]. *)
Definition from_dict (now : Z) (d : pydict) : result StreamDetails :=
  v_provider ← required "provider" d;
  v_item_id ← required "item_id" d;
  v_audio_format ← required "audio_format" d;
  a_audio_format ← field_try "audio_format" (from_dict_of v_audio_format);
  a_media_type ← defaulted "media_type" unpack_enum d;
  a_stream_type ← defaulted "stream_type" unpack_enum d;
  a_duration ← optional "duration" py_int d;
  a_size ← optional "size" py_int d;
  a_loudness ← optional "loudness" py_float d;
  a_loudness_album ← optional "loudness_album" py_float d;
  a_mode ← optional "volume_normalization_mode" unpack_enum d;
  a_gain ← optional "volume_normalization_gain_correct" py_float d;
  a_target ← optional "target_loudness" py_float d;
  a_dsp ← optional "dsp" unpack_dsp d;
  a_provider ← typed_str "provider" v_provider;
  a_item_id ← typed_str "item_id" v_item_id;
  a_stream_title ← typed_opt_str "stream_title" (d !! "stream_title");
  a_prefer ← typed_opt_bool "prefer_album_loudness" (d !! "prefer_album_loudness");
  a_begin ← typed_opt_bool "strip_silence_begin" (d !! "strip_silence_begin");
  a_end ← typed_opt_bool "strip_silence_end" (d !! "strip_silence_end");
  StreamDetails_init now
    {| kw_provider := Some a_provider;
       kw_item_id := Some a_item_id;
       kw_audio_format := Some a_audio_format;
       kw_media_type := a_media_type;
       kw_stream_type := a_stream_type;
       kw_duration := a_duration;
       kw_size := a_size;
       kw_stream_title := a_stream_title;
       kw_path := d !! "path";
       kw_data := d !! "data";
       kw_extra_input_args := d !! "extra_input_args";
       kw_decryption_key := d !! "decryption_key";
       kw_allow_seek := d !! "allow_seek";
       kw_can_seek := d !! "can_seek";
       kw_enable_cache := d !! "enable_cache";
       kw_loudness := a_loudness;
       kw_loudness_album := a_loudness_album;
       kw_prefer_album_loudness := a_prefer;
       kw_volume_normalization_mode := a_mode;
       kw_volume_normalization_gain_correct := a_gain;
       kw_target_loudness := a_target;
       kw_strip_silence_begin := a_begin;
       kw_strip_silence_end := a_end;
       kw_dsp := a_dsp;
       kw_fade_in := d !! "fade_in";
       kw_seek_position := d !! "seek_position";
       kw_queue_id := d !! "queue_id";
       kw_seconds_streamed := d !! "seconds_streamed";
       kw_stream_error := d !! "stream_error";
       kw_cache := d !! "cache";
       kw_created_at := d !! "created_at" |}.

(** The names of the fields declared [serialize="omit"],
    [deserialize=pass_through]. *)
Definition server_only : list string :=
  ["path"; "data"; "extra_input_args"; "decryption_key"; "allow_seek";
   "can_seek"; "enable_cache"; "fade_in"; "seek_position"; "queue_id";
   "seconds_streamed"; "stream_error"; "cache"; "created_at"].

(** The names of the other fields, which reach the client. *)
Definition public_keys : list string :=
  ["provider"; "item_id"; "audio_format"; "media_type"; "stream_type";
   "duration"; "size"; "stream_title"; "loudness"; "loudness_album";
   "prefer_album_loudness"; "volume_normalization_mode";
   "volume_normalization_gain_correct"; "target_loudness";
   "strip_silence_begin"; "strip_silence_end"; "dsp"].

(** The server-side field of the name [k]. *)
Definition server_field (k : string) (r : StreamDetails) : option pyobj :=
  if decide (k = "path") then Some (path r)
  else if decide (k = "data") then Some (data r)
  else if decide (k = "extra_input_args") then Some (extra_input_args r)
  else if decide (k = "decryption_key") then Some (decryption_key r)
  else if decide (k = "allow_seek") then Some (allow_seek r)
  else if decide (k = "can_seek") then Some (can_seek r)
  else if decide (k = "enable_cache") then Some (enable_cache r)
  else if decide (k = "fade_in") then Some (fade_in r)
  else if decide (k = "seek_position") then Some (seek_position r)
  else if decide (k = "queue_id") then Some (queue_id r)
  else if decide (k = "seconds_streamed") then Some (seconds_streamed r)
  else if decide (k = "stream_error") then Some (stream_error r)
  else if decide (k = "cache") then Some (cache r)
  else if decide (k = "created_at") then Some (created_at r)
  else None.

(** ** Auxiliary definitions for the statements *)

(** The two rewrites of [__post_serialize__] on a string. *)
Definition legacy (s : string) : string :=
  PyStr.replace "multi_file" "local_file" (PyStr.replace "cache" "local_file" s).

(** The mapping that [pack_fields] builds for [r]. *)
Definition packed (r : StreamDetails) : pydict :=
  <["dsp" := pack_opt (λ m, VDict (to_dict_of <$> m)) (dsp r)]>
  (<["strip_silence_end" := VBool (strip_silence_end r)]>
  (<["strip_silence_begin" := VBool (strip_silence_begin r)]>
  (<["target_loudness" := pack_opt VFloat (target_loudness r)]>
  (<["volume_normalization_gain_correct" :=
       pack_opt VFloat (volume_normalization_gain_correct r)]>
  (<["volume_normalization_mode" :=
       pack_opt (λ e, VStr (enum_value e)) (volume_normalization_mode r)]>
  (<["prefer_album_loudness" := VBool (prefer_album_loudness r)]>
  (<["loudness_album" := pack_opt VFloat (loudness_album r)]>
  (<["loudness" := pack_opt VFloat (loudness r)]>
  (<["stream_title" := pack_opt VStr (stream_title r)]>
  (<["size" := pack_opt VInt (size r)]>
  (<["duration" := pack_opt VInt (duration r)]>
  (<["stream_type" := VStr (enum_value (stream_type r))]>
  (<["media_type" := VStr (enum_value (media_type r))]>
  (<["audio_format" := to_dict_of (audio_format r)]>
  (<["item_id" := VStr (item_id r)]>
  (<["provider" := VStr (provider r)]> ∅)))))))))))))))).

(** The mapping that [to_dict] returns for [r]. *)
Definition wire (r : StreamDetails) : pydict :=
  <["stream_type" := VStr (legacy (enum_value (stream_type r)))]> (packed r).

(** The record with the client-facing fields of [pub] and the server-side
    fields of [srv]. *)
Definition with_server_fields (pub srv : StreamDetails) : StreamDetails :=
  {| provider := provider pub;
     item_id := item_id pub;
     audio_format := audio_format pub;
     media_type := media_type pub;
     stream_type := stream_type pub;
     duration := duration pub;
     size := size pub;
     stream_title := stream_title pub;
     path := path srv;
     data := data srv;
     extra_input_args := extra_input_args srv;
     decryption_key := decryption_key srv;
     allow_seek := allow_seek srv;
     can_seek := can_seek srv;
     enable_cache := enable_cache srv;
     loudness := loudness pub;
     loudness_album := loudness_album pub;
     prefer_album_loudness := prefer_album_loudness pub;
     volume_normalization_mode := volume_normalization_mode pub;
     volume_normalization_gain_correct := volume_normalization_gain_correct pub;
     target_loudness := target_loudness pub;
     strip_silence_begin := strip_silence_begin pub;
     strip_silence_end := strip_silence_end pub;
     dsp := dsp pub;
     fade_in := fade_in srv;
     seek_position := seek_position srv;
     queue_id := queue_id srv;
     seconds_streamed := seconds_streamed srv;
     stream_error := stream_error srv;
     cache := cache srv;
     created_at := created_at srv |}.

(** The client-facing fields other than [stream_type] agree. *)
Definition same_public_but_stream_type (a b : StreamDetails) : Prop :=
  provider a = provider b ∧ item_id a = item_id b ∧
  audio_format a = audio_format b ∧ media_type a = media_type b ∧
  duration a = duration b ∧ size a = size b ∧
  stream_title a = stream_title b ∧ loudness a = loudness b ∧
  loudness_album a = loudness_album b ∧
  prefer_album_loudness a = prefer_album_loudness b ∧
  volume_normalization_mode a = volume_normalization_mode b ∧
  volume_normalization_gain_correct a = volume_normalization_gain_correct b ∧
  target_loudness a = target_loudness b ∧
  strip_silence_begin a = strip_silence_begin b ∧
  strip_silence_end a = strip_silence_end b ∧ dsp a = dsp b.

(** All client-facing fields agree. *)
Definition same_public (a b : StreamDetails) : Prop :=
  same_public_but_stream_type a b ∧ stream_type a = stream_type b.

(** Every argument that the call gives is the value of its field in [r]. *)
Definition stored_as_given (kw : kwargs) (r : StreamDetails) : Prop :=
  (∀ x, kw_provider kw = Some x → provider r = x) ∧
  (∀ x, kw_item_id kw = Some x → item_id r = x) ∧
  (∀ x, kw_audio_format kw = Some x → audio_format r = x) ∧
  (∀ x, kw_media_type kw = Some x → media_type r = x) ∧
  (∀ x, kw_stream_type kw = Some x → stream_type r = x) ∧
  (∀ x, kw_duration kw = Some x → duration r = x) ∧
  (∀ x, kw_size kw = Some x → size r = x) ∧
  (∀ x, kw_stream_title kw = Some x → stream_title r = x) ∧
  (∀ x, kw_path kw = Some x → path r = x) ∧
  (∀ x, kw_data kw = Some x → data r = x) ∧
  (∀ x, kw_extra_input_args kw = Some x → extra_input_args r = x) ∧
  (∀ x, kw_decryption_key kw = Some x → decryption_key r = x) ∧
  (∀ x, kw_allow_seek kw = Some x → allow_seek r = x) ∧
  (∀ x, kw_can_seek kw = Some x → can_seek r = x) ∧
  (∀ x, kw_enable_cache kw = Some x → enable_cache r = x) ∧
  (∀ x, kw_loudness kw = Some x → loudness r = x) ∧
  (∀ x, kw_loudness_album kw = Some x → loudness_album r = x) ∧
  (∀ x, kw_prefer_album_loudness kw = Some x → prefer_album_loudness r = x) ∧
  (∀ x, kw_volume_normalization_mode kw = Some x →
        volume_normalization_mode r = x) ∧
  (∀ x, kw_volume_normalization_gain_correct kw = Some x →
        volume_normalization_gain_correct r = x) ∧
  (∀ x, kw_target_loudness kw = Some x → target_loudness r = x) ∧
  (∀ x, kw_strip_silence_begin kw = Some x → strip_silence_begin r = x) ∧
  (∀ x, kw_strip_silence_end kw = Some x → strip_silence_end r = x) ∧
  (∀ x, kw_dsp kw = Some x → dsp r = x) ∧
  (∀ x, kw_fade_in kw = Some x → fade_in r = x) ∧
  (∀ x, kw_seek_position kw = Some x → seek_position r = x) ∧
  (∀ x, kw_queue_id kw = Some x → queue_id r = x) ∧
  (∀ x, kw_seconds_streamed kw = Some x → seconds_streamed r = x) ∧
  (∀ x, kw_stream_error kw = Some x → stream_error r = x) ∧
  (∀ x, kw_cache kw = Some x → cache r = x) ∧
  (∀ x, kw_created_at kw = Some x → created_at r = x).

(** The computation [m] leaves the record as it found it. *)
Definition preserves_self {A} (m : M A) : Prop :=
  ∀ fr a fr', m fr = Ok (a, fr') → fr_self fr' = fr_self fr.

(** The outcome is a record or a decode error. *)
Definition decodes {A} (x : result A) : Prop :=
  match x with
  | Ok _ => True
  | Raise e => is_decode_error e = true
  | OffType _ => False
  end.

(** A call that gives nothing. *)
Definition no_kwargs : kwargs :=
  {| kw_provider := None; kw_item_id := None; kw_audio_format := None;
     kw_media_type := None; kw_stream_type := None; kw_duration := None;
     kw_size := None; kw_stream_title := None; kw_path := None;
     kw_data := None; kw_extra_input_args := None; kw_decryption_key := None;
     kw_allow_seek := None; kw_can_seek := None; kw_enable_cache := None;
     kw_loudness := None; kw_loudness_album := None;
     kw_prefer_album_loudness := None; kw_volume_normalization_mode := None;
     kw_volume_normalization_gain_correct := None; kw_target_loudness := None;
     kw_strip_silence_begin := None; kw_strip_silence_end := None;
     kw_dsp := None; kw_fade_in := None; kw_seek_position := None;
     kw_queue_id := None; kw_seconds_streamed := None; kw_stream_error := None;
     kw_cache := None; kw_created_at := None |}.

End StreamDetails.

Arguments StreamDetails : clear implicits.
Arguments kwargs : clear implicits.
Arguments frame : clear implicits.
Arguments M : clear implicits.

(** ** Concrete collaborators for the examples *)

Module Sample.

(** A float, named by its IEEE 754 binary64 bit pattern. *)
Definition float64 : Type := Z.

(** [int] and [float] on the objects that are numbers already. The
    conversions from strings and between the two number types are not used
    by the examples and are left out ([None]). *)
#[global] Instance numeric : PyNumeric float64.
Proof.
  refine {| py_int v := match v with
                        | VInt z => Some z
                        | VBool b => Some (Z.b2z b)
                        | _ => None
                        end;
            py_float v := match v with VFloat f => Some f | _ => None end |};
    reflexivity.
Defined.

(** Modelled from the spec: [enums.py] is missing; the members of
    [MediaType] that the spec names. *)
Inductive MediaType : Type := MT_TRACK | MT_RADIO.

(** Modelled from the spec: [enums.py] is missing; the members of
    [StreamType] that the spec names. *)
Inductive StreamType : Type :=
| ST_CUSTOM | ST_LOCAL_FILE | ST_ENCRYPTED_HTTP | ST_CACHE | ST_MULTI_FILE
| ST_ICY | ST_HLS.

(** Modelled from the spec: [enums.py] is missing and the spec names no
    member of [VolumeNormalizationMode]; one member stands for them. *)
Inductive VolumeNormalizationMode : Type := VN_DYNAMIC.

#[global] Instance MediaType_eq_dec : EqDecision MediaType.
Proof. solve_decision. Defined.
#[global] Instance StreamType_eq_dec : EqDecision StreamType.
Proof. solve_decision. Defined.
#[global] Instance VolumeNormalizationMode_eq_dec :
  EqDecision VolumeNormalizationMode.
Proof. solve_decision. Defined.

Definition MediaType_value (e : MediaType) : string :=
  match e with MT_TRACK => "track" | MT_RADIO => "radio" end.

Definition StreamType_value (e : StreamType) : string :=
  match e with
  | ST_CUSTOM => "custom"
  | ST_LOCAL_FILE => "local_file"
  | ST_ENCRYPTED_HTTP => "encrypted_http"
  | ST_CACHE => "cache"
  | ST_MULTI_FILE => "multi_file"
  | ST_ICY => "icy"
  | ST_HLS => "hls"
  end.

#[global] Instance MediaType_StrEnum : StrEnum MediaType.
Proof.
  refine {| enum_value := MediaType_value;
            enum_members := [MT_TRACK; MT_RADIO] |}.
  - intros [] []; simpl; congruence.
  - intros []; set_solver.
Defined.

#[global] Instance StreamType_StrEnum : StrEnum StreamType.
Proof.
  refine {| enum_value := StreamType_value;
            enum_members := [ST_CUSTOM; ST_LOCAL_FILE; ST_ENCRYPTED_HTTP;
                             ST_CACHE; ST_MULTI_FILE; ST_ICY; ST_HLS] |}.
  - intros [] []; simpl; congruence.
  - intros []; set_solver.
Defined.

#[global] Instance VolumeNormalizationMode_StrEnum :
  StrEnum VolumeNormalizationMode.
Proof.
  refine {| enum_value := λ _, "dynamic"; enum_members := [VN_DYNAMIC] |}.
  - by intros [] [].
  - intros []; set_solver.
Defined.

#[global] Instance MediaType_MediaTypeEnum : MediaTypeEnum MediaType :=
  {| TRACK := MT_TRACK; TRACK_value := eq_refl |}.

#[global] Instance StreamType_StreamTypeEnum : StreamTypeEnum StreamType :=
  {| CUSTOM := ST_CUSTOM; LOCAL_FILE := ST_LOCAL_FILE; CACHE := ST_CACHE;
     MULTI_FILE := ST_MULTI_FILE; CUSTOM_value := eq_refl;
     LOCAL_FILE_value := eq_refl; CACHE_value := eq_refl;
     MULTI_FILE_value := eq_refl |}.

(** Modelled from the spec: [media_items.py] is missing; [AudioFormat]
    describes codec, sample rate, bit depth and channels. *)
Record AudioFormat : Type := {
  content_type : string;
  sample_rate : Z;
  bit_depth : Z;
  channels : Z
}.

(** Modelled from the spec: [dsp.py] is missing and the spec gives no field
    of [DSPDetails]; a single field stands for them. *)
Record DSPDetails : Type := { dsp_state : string }.

#[global] Instance AudioFormat_eq_dec : EqDecision AudioFormat.
Proof. solve_decision. Defined.
#[global] Instance DSPDetails_eq_dec : EqDecision DSPDetails.
Proof. solve_decision. Defined.

#[global] Instance AudioFormat_DictMixin : DictMixin float64 AudioFormat :=
  {| to_dict_of a :=
       VDict (<["channels" := VInt (channels a)]>
             (<["bit_depth" := VInt (bit_depth a)]>
             (<["sample_rate" := VInt (sample_rate a)]>
             (<["content_type" := VStr (content_type a)]> ∅))));
     from_dict_of v :=
       match v with
       | VDict m =>
           match m !! "content_type", m !! "sample_rate",
                 m !! "bit_depth", m !! "channels" with
           | Some (VStr c), Some (VInt s), Some (VInt b), Some (VInt n) =>
               Some {| content_type := c; sample_rate := s;
                       bit_depth := b; channels := n |}
           | _, _, _, _ => None
           end
       | _ => None
       end |}.

#[global] Instance DSPDetails_DictMixin : DictMixin float64 DSPDetails :=
  {| to_dict_of a := VDict {[ "state" := VStr (dsp_state a) ]};
     from_dict_of v :=
       match v with
       | VDict m =>
           match m !! "state" with
           | Some (VStr s) => Some {| dsp_state := s |}
           | _ => None
           end
       | _ => None
       end |}.

Abbreviation Details :=
  (StreamDetails float64 AudioFormat DSPDetails MediaType StreamType
     VolumeNormalizationMode).
Abbreviation Kwargs :=
  (kwargs float64 AudioFormat DSPDetails MediaType StreamType
     VolumeNormalizationMode).

Definition flac : AudioFormat :=
  {| content_type := "flac"; sample_rate := 44100; bit_depth := 16;
     channels := 2 |}.

(** [StreamDetails(provider="spotify", item_id="123", audio_format=flac,
    media_type=MediaType.TRACK, stream_type=st, can_seek=True,
    allow_seek=False)]. *)
Definition call_spotify (st : StreamType) : Kwargs :=
  {| kw_provider := Some "spotify"; kw_item_id := Some "123";
     kw_audio_format := Some flac; kw_media_type := Some MT_TRACK;
     kw_stream_type := Some st; kw_duration := None;
     kw_size := None; kw_stream_title := None; kw_path := None;
     kw_data := None; kw_extra_input_args := None; kw_decryption_key := None;
     kw_allow_seek := Some (VBool false); kw_can_seek := Some (VBool true);
     kw_enable_cache := None;
     kw_loudness := None; kw_loudness_album := None;
     kw_prefer_album_loudness := None; kw_volume_normalization_mode := None;
     kw_volume_normalization_gain_correct := None; kw_target_loudness := None;
     kw_strip_silence_begin := None; kw_strip_silence_end := None;
     kw_dsp := None; kw_fade_in := None; kw_seek_position := None;
     kw_queue_id := None; kw_seconds_streamed := None; kw_stream_error := None;
     kw_cache := None; kw_created_at := None |}.

(** The record that the call builds at the clock reading [now]. *)
Definition spotify (st : StreamType) (now : Z) : Details :=
  {| provider := "spotify"; item_id := "123"; audio_format := flac;
     media_type := MT_TRACK; stream_type := st; duration := None;
     size := None; stream_title := None; path := VNone; data := VNone;
     extra_input_args := VList []; decryption_key := VNone;
     allow_seek := VBool false; can_seek := VBool true;
     enable_cache := VNone; loudness := None; loudness_album := None;
     prefer_album_loudness := false; volume_normalization_mode := None;
     volume_normalization_gain_correct := None; target_loudness := None;
     strip_silence_begin := false; strip_silence_end := false; dsp := None;
     fade_in := VBool false; seek_position := VInt 0; queue_id := VNone;
     seconds_streamed := VNone; stream_error := VNone; cache := VNone;
     created_at := VDatetime now |}.

(** A record for the item [i] of the provider [p], with a path and a seek
    position set on the server side. *)
Definition item (p i : string) (st : StreamType) (now : Z) : Details :=
  {| provider := p; item_id := i; audio_format := flac;
     media_type := MT_TRACK; stream_type := st; duration := Some 180%Z;
     size := None; stream_title := None; path := VStr "/music/a.flac";
     data := VNone; extra_input_args := VList []; decryption_key := VNone;
     allow_seek := VBool true; can_seek := VBool true;
     enable_cache := VNone; loudness := None; loudness_album := None;
     prefer_album_loudness := false;
     volume_normalization_mode := Some VN_DYNAMIC;
     volume_normalization_gain_correct := None; target_loudness := None;
     strip_silence_begin := true; strip_silence_end := false;
     dsp := Some {[ "player_1" := {| dsp_state := "enabled" |} ]};
     fade_in := VBool false; seek_position := VInt 30; queue_id := VNone;
     seconds_streamed := VNone; stream_error := VNone; cache := VNone;
     created_at := VDatetime now |}.

(** A transport mapping with the three mandatory entries, the entry [st] for
    [stream_type] and the entry [p] for [path]. *)
Definition mapping (st p : value float64) : gmap string (value float64) :=
  <["path" := p]>
  (<["stream_type" := st]>
  (<["audio_format" := to_dict_of flac]>
  (<["item_id" := VStr "123"]>
  (<["provider" := VStr "spotify"]> ∅)))).

End Sample.

Example init_spotify :
  StreamDetails_init 7 (Sample.call_spotify Sample.ST_CACHE)
  = Ok (Sample.spotify Sample.ST_CACHE 7).
Proof. reflexivity. Qed.

Example to_dict_spotify_cache :
  (λ d, d !! "stream_type") <$> to_dict (Sample.spotify Sample.ST_CACHE 7)
  = Ok (Some (VStr "local_file")).
Proof. vm_compute. reflexivity. Qed.

Example from_dict_spotify :
  (λ r, (stream_type r, path r, can_seek r, created_at r))
    <$> (from_dict 9 (Sample.mapping (VStr "hls") (VInt 5))
         : result Sample.Details)
  = Ok (Sample.ST_HLS, VInt 5, VBool false, VDatetime 9).
Proof. vm_compute. reflexivity. Qed.

Example from_dict_unknown :
  from_dict 9 (Sample.mapping (VStr "unknown_value") VNone)
  = Raise (InvalidFieldValue "stream_type")
    :> result Sample.Details.
Proof. vm_compute. reflexivity. Qed.

(** ** Auxiliary definitions for the string facts *)

(** [a] and [b] differ at a position that both have. *)
Fixpoint mismatch (a b : string) : bool :=
  match a, b with
  | String x a', String y b' => if Ascii.eqb x y then mismatch a' b' else true
  | _, _ => false
  end.

(** No non-empty suffix of [w] can begin a string that begins with [new]. *)
Fixpoint tails_mismatch (w new : string) : bool :=
  match w with
  | EmptyString => true
  | String _ w' => mismatch w new && tails_mismatch w' new
  end.

(** [w] can begin at no position of [new]. *)
Fixpoint starts_nowhere (w new : string) : bool :=
  match new with
  | EmptyString => true
  | String _ new' => mismatch w new && starts_nowhere w new'
  end.

(** [c in s] for a character [c]. *)
Fixpoint has_char (c : Ascii.ascii) (s : string) : bool :=
  match s with
  | EmptyString => false
  | String x s' => Ascii.eqb c x || has_char c s'
  end.

(** ** Facts about the string operations *)

Lemma replace_scan_absent (old new s : string) :
  PyStr.contains old s = false → PyStr.replace_scan old new 0 s = s.
Proof.
  induction s as [|c s IH]; simpl; [done|].
  intros [Hpre Hrest]%orb_false_iff.
  rewrite Hpre. by rewrite IH.
Qed.

Lemma replace_absent (old new s : string) :
  old ≠ "" → PyStr.contains old s = false → PyStr.replace old new s = s.
Proof.
  intros Hne Habs. destruct old as [|c old]; [done|].
  by apply replace_scan_absent.
Qed.

Lemma legacy_absent (s : string) :
  PyStr.contains "cache" s = false →
  PyStr.contains "multi_file" s = false →
  legacy s = s.
Proof.
  intros Hc Hm. unfold legacy.
  rewrite (replace_absent "cache") by done.
  by rewrite (replace_absent "multi_file").
Qed.

Lemma replace_scan_skip (old new : string) (k : nat) (c : Ascii.ascii) (s : string) :
  PyStr.replace_scan old new (S k) (String c s) = PyStr.replace_scan old new k s.
Proof. reflexivity. Qed.

Lemma replace_scan_here (old new : string) (c : Ascii.ascii) (s : string) :
  PyStr.replace_scan old new 0 (String c s) =
  if String.prefix old (String c s)
  then new +:+ PyStr.replace_scan old new (String.length old - 1) s
  else String c (PyStr.replace_scan old new 0 s).
Proof. reflexivity. Qed.

Lemma contains_cons (w : string) (c : Ascii.ascii) (s : string) :
  PyStr.contains w (String c s) = String.prefix w (String c s) || PyStr.contains w s.
Proof. reflexivity. Qed.

Lemma mismatch_prefix (a b rest : string) :
  mismatch a b = true → String.prefix a (b +:+ rest) = false.
Proof.
  revert b. induction a as [|x a IH]; intros [|y b]; simpl; try done.
  destruct (Ascii.eqb_spec x y) as [-> | Hxy]; intros Hm.
  - destruct (Ascii.ascii_dec y y); [by apply IH | done].
  - by destruct (Ascii.ascii_dec x y).
Qed.

Lemma contains_app_new (w new rest : string) :
  starts_nowhere w new = true →
  PyStr.contains w rest = false →
  PyStr.contains w (new +:+ rest) = false.
Proof.
  intros Hsn Hrest. induction new as [|c new IH]; [done|].
  simpl in Hsn. apply andb_true_iff in Hsn as [Hm Hsn].
  change (String c new +:+ rest) with (String c (new +:+ rest)).
  rewrite contains_cons, IH by done.
  change (String c (new +:+ rest)) with (String c new +:+ rest).
  by rewrite mismatch_prefix.
Qed.

(** A string that begins what [replace] returns begins its argument, when
    none of its suffixes can begin with the replacement. *)
Lemma prefix_replace_scan (old new w : string) :
  tails_mismatch w new = true →
  ∀ s, String.prefix w (PyStr.replace_scan old new 0 s) = true →
       String.prefix w s = true.
Proof.
  induction w as [|x w IH]; [by intros _ []|].
  intros [Hm Ht]%andb_true_iff [|c s]; [done|].
  rewrite replace_scan_here.
  destruct (String.prefix old (String c s)).
  - by rewrite mismatch_prefix.
  - simpl. destruct (Ascii.ascii_dec x c); [by apply IH | done].
Qed.

(** What [replace] returns has no occurrence of [old] left. *)
Lemma replace_scan_removes (old new : string) :
  old ≠ "" →
  tails_mismatch old new = true →
  starts_nowhere old new = true →
  ∀ s skip, PyStr.contains old (PyStr.replace_scan old new skip s) = false.
Proof.
  intros Hne Ht Hsn. induction s as [|c s IH]; intros skip.
  - destruct old; [done|]. by destruct skip.
  - destruct skip as [|k]; [|by rewrite replace_scan_skip].
    destruct (String.prefix old (String c s)) eqn:Hpre.
    + rewrite replace_scan_here, Hpre. by apply contains_app_new.
    + destruct (String.prefix old (PyStr.replace_scan old new 0 (String c s)))
        eqn:Hout.
      * apply prefix_replace_scan in Hout; [congruence | done].
      * rewrite replace_scan_here, Hpre in Hout |- *.
        by rewrite contains_cons, Hout, IH.
Qed.

(** [replace] brings in no occurrence of [w]. *)
Lemma replace_scan_keeps_absent (old new w : string) :
  w ≠ "" →
  tails_mismatch w new = true →
  starts_nowhere w new = true →
  ∀ s skip, PyStr.contains w s = false →
            PyStr.contains w (PyStr.replace_scan old new skip s) = false.
Proof.
  intros Hne Ht Hsn. induction s as [|c s IH]; intros skip Hs.
  - destruct w; [done|]. by destruct skip.
  - rewrite contains_cons in Hs. apply orb_false_iff in Hs as [Hpre Hs].
    destruct skip as [|k]; [|rewrite replace_scan_skip; by apply IH].
    destruct (String.prefix w (PyStr.replace_scan old new 0 (String c s)))
      eqn:Hout.
    + apply prefix_replace_scan in Hout; [congruence | done].
    + rewrite replace_scan_here in Hout |- *.
      destruct (String.prefix old (String c s)).
      * apply contains_app_new; [done | by apply IH].
      * by rewrite contains_cons, Hout, IH.
Qed.

Lemma legacy_clean (s : string) :
  PyStr.contains "cache" (legacy s) = false ∧
  PyStr.contains "multi_file" (legacy s) = false.
Proof.
  unfold legacy, PyStr.replace. split.
  - apply replace_scan_keeps_absent; [done..|].
    by apply replace_scan_removes.
  - by apply replace_scan_removes.
Qed.

Lemma legacy_idempotent (s : string) : legacy (legacy s) = legacy s.
Proof. destruct (legacy_clean s). by apply legacy_absent. Qed.

(** ** Facts about the enumerations *)

Section EnumFacts.

Context {E : Type} `{!StrEnum E}.

Lemma find_by_value (l : list E) (e : E) :
  e ∈ l → List.find (λ x, bool_decide (enum_value x = enum_value e)) l = Some e.
Proof.
  induction l as [|x l IH]; intros Hin; [by apply elem_of_nil in Hin|].
  simpl. case_bool_decide as Hx.
  - f_equal. by apply enum_value_inj.
  - apply elem_of_cons in Hin as [->|Hin]; [done|]. by apply IH.
Qed.

Lemma enum_lookup_value (e : E) : enum_lookup (enum_value e) = Some e.
Proof. apply find_by_value, enum_members_all. Qed.

Lemma enum_lookup_Some (s : string) (e : E) :
  enum_lookup s = Some e → enum_value e = s.
Proof.
  unfold enum_lookup. intros [_ H]%List.find_some.
  by apply bool_decide_eq_true in H.
Qed.

Lemma enum_lookup_None (s : string) :
  (∀ e : E, enum_value e ≠ s) → enum_lookup (E:=E) s = None.
Proof.
  intros Hno. destruct (enum_lookup s) as [e|] eqn:He; [|done].
  apply enum_lookup_Some in He. by destruct (Hno e).
Qed.

End EnumFacts.

(** ** Facts about the record operations *)

Section Properties.

Context {pyfloat : Type} `{!EqDecision pyfloat} `{!PyNumeric pyfloat}.
Context {AudioFormat DSPDetails : Type}.
Context `{!EqDecision AudioFormat} `{!EqDecision DSPDetails}.
Context `{!DictMixin pyfloat AudioFormat} `{!DictMixin pyfloat DSPDetails}.
Context {MediaType StreamType VolumeNormalizationMode : Type}.
Context `{!MediaTypeEnum MediaType} `{!StreamTypeEnum StreamType}.
Context `{!StrEnum VolumeNormalizationMode}.

Abbreviation pyobj := (value pyfloat).
Abbreviation pydict := (gmap string (value pyfloat)).
Abbreviation Details :=
  (StreamDetails pyfloat AudioFormat DSPDetails MediaType StreamType
     VolumeNormalizationMode).
Abbreviation Kwargs :=
  (kwargs pyfloat AudioFormat DSPDetails MediaType StreamType
     VolumeNormalizationMode).

Abbreviation Frames :=
  (frame pyfloat AudioFormat DSPDetails MediaType StreamType
     VolumeNormalizationMode).
Abbreviation Ser :=
  (M pyfloat AudioFormat DSPDetails MediaType StreamType
     VolumeNormalizationMode).

Implicit Types (r : Details) (d : pydict) (kw : Kwargs) (now : Z).

Ltac lookup_in_wire :=
  unfold wire, packed;
  rewrite ?lookup_insert_ne by done;
  first [ by rewrite lookup_insert_eq | by rewrite lookup_empty ].

Lemma pack_fields_run r : pack_fields (Frame r ∅) = Ok ((), Frame r (packed r)).
Proof. reflexivity. Qed.

Lemma packed_stream_type r :
  packed r !! "stream_type" = Some (VStr (enum_value (stream_type r))).
Proof. lookup_in_wire. Qed.

Lemma post_serialize_packed r :
  __post_serialize__ (Frame r (packed r)) = Ok (wire r, Frame r (wire r)).
Proof.
  unfold __post_serialize__, mbind, M_bind, getitem, setitem, return_dict.
  cbn [fr_dict fr_self].
  rewrite packed_stream_type. cbn [call_replace mret M_ret].
  rewrite lookup_insert_eq. cbn [call_replace mret M_ret fr_dict fr_self].
  by rewrite insert_insert_eq.
Qed.

Lemma to_dict_run_eq r : to_dict_run r = Ok (wire r, Frame r (wire r)).
Proof.
  unfold to_dict_run, to_dict_body.
  unfold mbind at 1. unfold M_bind at 1. rewrite pack_fields_run.
  apply post_serialize_packed.
Qed.

Lemma to_dict_eq r : to_dict r = Ok (wire r).
Proof. unfold to_dict. by rewrite to_dict_run_eq. Qed.

Lemma wire_server_only r : Forall (λ k, wire r !! k = None) server_only.
Proof. unfold server_only. repeat constructor; lookup_in_wire. Qed.

Lemma wire_stream_type r :
  wire r !! "stream_type" = Some (VStr (legacy (enum_value (stream_type r)))).
Proof. unfold wire. by rewrite lookup_insert_eq. Qed.

(** *** The record is only read *)

Lemma preserves_bind {A B} (m : Ser A) (k : A → Ser B) :
  preserves_self m → (∀ a, preserves_self (k a)) → preserves_self (m ≫= k).
Proof.
  intros Hm Hk fr b fr'. unfold mbind, M_bind.
  destruct (m fr) as [[a fr1]| |] eqn:Hrun; [|done..].
  intros Hrun'. rewrite (Hk _ _ _ _ Hrun'). by eapply Hm.
Qed.

Lemma preserves_getattr {A} (f : Details → A) : preserves_self (getattr f).
Proof. intros fr a fr'. unfold getattr. by intros [= _ <-]. Qed.

Lemma preserves_setitem k v : preserves_self (setitem k v : Ser unit).
Proof. intros fr a fr'. unfold setitem. by intros [= _ <-]. Qed.

Lemma preserves_getitem k : preserves_self (getitem k : Ser pyobj).
Proof.
  intros fr a fr'. unfold getitem.
  destruct (fr_dict fr !! k); [|done]. by intros [= _ <-].
Qed.

Lemma preserves_call_replace v old new :
  preserves_self (call_replace v old new : Ser pyobj).
Proof.
  intros fr a fr'. destruct v; try done.
  unfold call_replace, mret, M_ret. by intros [= _ <-].
Qed.

Lemma preserves_return_dict : preserves_self (return_dict : Ser pydict).
Proof. intros fr a fr'. unfold return_dict. by intros [= _ <-]. Qed.

Create HintDb frame_db discriminated.
#[local] Hint Resolve preserves_getattr preserves_setitem preserves_getitem
  preserves_call_replace preserves_return_dict : frame_db.

Ltac preserves_step :=
  repeat first
    [ apply preserves_bind; [|intros ?]
    | solve [auto with frame_db] ].

Lemma preserves_pack_fields : preserves_self (pack_fields : Ser unit).
Proof. unfold pack_fields. preserves_step. Qed.

Lemma preserves_post_serialize :
  preserves_self (__post_serialize__ : Ser pydict).
Proof. unfold __post_serialize__. preserves_step. Qed.

(** *** The claims on serialization *)

(** C2: a record whose [stream_type] is [CACHE] or [MULTI_FILE] is
    serialized with the entry "local_file" for [stream_type]. *)
Theorem internal_stream_type_sent_as_local_file r :
  stream_type r = CACHE ∨ stream_type r = MULTI_FILE →
  ∃ d, to_dict r = Ok d ∧ d !! "stream_type" = Some (VStr "local_file").
Proof.
  intros Hst. exists (wire r). split; [apply to_dict_eq|].
  rewrite wire_stream_type.
  destruct Hst as [-> | ->]; [rewrite CACHE_value | rewrite MULTI_FILE_value];
    reflexivity.
Qed.

(** C3: whatever the record holds, the mapping that [to_dict] returns has
    no entry for any of the fourteen server-side fields. *)
Theorem server_only_fields_omitted r :
  ∃ d, to_dict r = Ok d ∧
    Forall (λ k, d !! k = None)
      ["path"; "data"; "extra_input_args"; "decryption_key"; "allow_seek";
       "can_seek"; "enable_cache"; "fade_in"; "seek_position"; "queue_id";
       "seconds_streamed"; "stream_error"; "cache"; "created_at"].
Proof.
  exists (wire r). split; [apply to_dict_eq|]. apply wire_server_only.
Qed.

(** C9: on every record [uri] has a value and [to_dict] returns a mapping;
    the mapping handed to [__post_serialize__] has an entry for
    [stream_type], and that entry is a string. *)
Theorem uri_and_to_dict_total r :
  (∃ s, uri r = s ∧ StreamDetails_str r = s) ∧
  (∃ fr s, pack_fields (Frame r ∅) = Ok ((), fr) ∧
           fr_dict fr !! "stream_type" = Some (VStr s) ∧
           is_Ok (__post_serialize__ fr)) ∧
  is_Ok (to_dict r).
Proof.
  split; [by exists (uri r)|]. split.
  - exists (Frame r (packed r)), (enum_value (stream_type r)).
    split; [apply pack_fields_run|]. split; [apply packed_stream_type|].
    eexists. apply post_serialize_packed.
  - exists (wire r). apply to_dict_eq.
Qed.

(** C10: [to_dict] only reads the record: when it returns, [self] is the
    record it was called on, also where the entry of the mapping has been
    rewritten; [__post_serialize__] changes nothing but the mapping, whatever
    mapping it is given. *)
Theorem to_dict_leaves_record_unchanged r :
  (∃ d fr, to_dict_run r = Ok (d, fr) ∧ fr_self fr = r ∧
           d !! "stream_type" = Some (VStr (legacy (enum_value (stream_type r)))) ∧
           stream_type (fr_self fr) = stream_type r) ∧
  (∀ (fr fr' : Frames) d,
     __post_serialize__ fr = Ok (d, fr') → fr_self fr' = fr_self fr) ∧
  (∀ (fr fr' : Frames) d,
     to_dict_body fr = Ok (d, fr') → fr_self fr' = fr_self fr).
Proof.
  split; [|split].
  - exists (wire r), (Frame r (wire r)).
    split; [apply to_dict_run_eq|]. split; [done|].
    split; [apply wire_stream_type | done].
  - intros fr fr' d. apply preserves_post_serialize.
  - intros fr fr' d. apply (preserves_bind pack_fields (λ _, __post_serialize__)).
    + apply preserves_pack_fields.
    + intros _. apply preserves_post_serialize.
Qed.

(** *** The claims on [uri], equality and construction *)

(** C5: [uri] is the provider, "://", the value of the media type, "/" and
    the item id; records that agree on these three fields have one [uri];
    for the provider "spotify", the item id "123" and the media type [TRACK]
    it is "spotify://track/123". *)
Theorem uri_format r :
  uri r = provider r +:+ "://" +:+ enum_value (media_type r) +:+ "/" +:+ item_id r ∧
  (∀ r' : Details,
     provider r' = provider r → media_type r' = media_type r →
     item_id r' = item_id r → uri r' = uri r) ∧
  (provider r = "spotify" → item_id r = "123" → media_type r = TRACK →
   uri r = "spotify://track/123").
Proof.
  split; [reflexivity|]. split.
  - intros r' Hp Hm Hi. unfold uri. by rewrite Hp, Hm, Hi.
  - intros Hp Hi Hm. unfold uri. rewrite Hp, Hi, Hm, TRACK_value. reflexivity.
Qed.

Lemma compare_fields_same_public (a b : Details) :
  compare_fields a = compare_fields b ↔ same_public a b.
Proof.
  unfold compare_fields, same_public, same_public_but_stream_type. split.
  - intros [=]. by repeat split.
  - intros [(?&?&?&?&?&?&?&?&?&?&?&?&?&?&?&?) ?]. congruence.
Qed.

(** C4: two records compare equal exactly when their seventeen client-facing
    fields, which are the fields that take part in the comparison, are
    pairwise equal; the server-side fields of either record have no
    influence on the comparison. *)
Theorem eq_iff_public_fields_equal (a b : Details) :
  (StreamDetails_eq a b = true ↔ same_public a b) ∧
  (∀ s1 s2 : Details,
     StreamDetails_eq (with_server_fields a s1) (with_server_fields b s2)
     = StreamDetails_eq a b) ∧
  (∀ s : Details, StreamDetails_eq a (with_server_fields a s) = true).
Proof.
  split; [|split].
  - unfold StreamDetails_eq. rewrite bool_decide_eq_true.
    apply compare_fields_same_public.
  - intros s1 s2. reflexivity.
  - intros s. unfold StreamDetails_eq. by apply bool_decide_eq_true.
Qed.

(** C7: [__init__] raises exactly when [provider], [item_id] or
    [audio_format] is not given; with the three given it returns a record in
    which every given argument is stored as it is, whatever the combination
    of the arguments. *)
Theorem init_checks_mandatory_fields_only now kw :
  (is_Raise (StreamDetails_init now kw) ↔
     kw_provider kw = None ∨ kw_item_id kw = None ∨ kw_audio_format kw = None) ∧
  (is_Some (kw_provider kw) → is_Some (kw_item_id kw) →
   is_Some (kw_audio_format kw) →
   ∃ r, StreamDetails_init now kw = Ok r ∧ stored_as_given kw r).
Proof.
  unfold StreamDetails_init. split.
  - destruct (kw_provider kw), (kw_item_id kw), (kw_audio_format kw); split;
      first [ by intros [e He]
            | by intros [?|[?|?]]
            | intros _; by eexists
            | intros _; by auto ].
  - intros [p Hp] [i Hi] [af Haf]. rewrite Hp, Hi, Haf.
    eexists. split; [done|].
    unfold stored_as_given. simpl.
    repeat split; intros x Hx; first [congruence | by rewrite Hx].
Qed.

(** *** The steps of [from_dict] *)

Lemma bind_Ok {A B} (a : A) (k : A → result B) : Ok a ≫= k = k a.
Proof. reflexivity. Qed.

Lemma bind_Ok_inv {A B} (x : result A) (k : A → result B) (b : B) :
  x ≫= k = Ok b → ∃ a, x = Ok a ∧ k a = Ok b.
Proof. destruct x as [a| |]; [|done..]. intros Hk. by exists a. Qed.

Lemma bind_raises {A B} (x : result A) (k : A → result B) :
  decodes x →
  (∀ a, x = Ok a → ∃ e, k a = Raise e ∧ is_decode_error e = true) →
  ∃ e, x ≫= k = Raise e ∧ is_decode_error e = true.
Proof.
  destruct x as [a|e|f]; simpl; intros Hx Hk; [by apply Hk | by exists e | done].
Qed.

Lemma decodes_field_try {A} f (o : option A) : decodes (field_try f o).
Proof. by destruct o. Qed.

Lemma decodes_required f d : decodes (required f d).
Proof. unfold required. by destruct (d !! f). Qed.

Lemma decodes_defaulted {A} f (unpack : pyobj → option A) d :
  decodes (defaulted f unpack d).
Proof. unfold defaulted. destruct (d !! f) as [v|]; [|done]. by destruct (unpack v). Qed.

Lemma decodes_optional {A} f (unpack : pyobj → option A) d :
  decodes (optional f unpack d).
Proof.
  unfold optional. destruct (d !! f) as [v|]; [|done].
  destruct v; try done; by destruct (unpack _).
Qed.

#[local] Hint Resolve decodes_field_try decodes_required decodes_defaulted
  decodes_optional : frame_db.

Lemma defaulted_unknown {E} `{!StrEnum E} f d s :
  d !! f = Some (VStr s) → (∀ e : E, enum_value e ≠ s) →
  defaulted (A:=E) f unpack_enum d = Raise (InvalidFieldValue f).
Proof.
  intros Hd Hs. unfold defaulted. rewrite Hd. simpl.
  by rewrite enum_lookup_None.
Qed.

Lemma optional_unknown {E} `{!StrEnum E} f d s :
  d !! f = Some (VStr s) → (∀ e : E, enum_value e ≠ s) →
  optional (A:=E) f unpack_enum d = Raise (InvalidFieldValue f).
Proof.
  intros Hd Hs. unfold optional. rewrite Hd. simpl.
  by rewrite enum_lookup_None.
Qed.

Ltac chase_raise :=
  lazymatch goal with
  | |- ∃ e, mbind _ (Raise _) = Raise e ∧ _ => by eexists
  | |- ∃ e, mbind _ _ = Raise e ∧ _ =>
      apply bind_raises; [by auto with frame_db | intros ? _; chase_raise]
  end.

(** C6: a mapping whose entry for [media_type], [stream_type] or
    [volume_normalization_mode] is a string that is the value of no member of
    the enumeration is not decoded: [from_dict] raises a decode error. *)
Theorem unknown_enum_value_raises now d s :
  (d !! "media_type" = Some (VStr s) ∧ ∀ e : MediaType, enum_value e ≠ s) ∨
  (d !! "stream_type" = Some (VStr s) ∧ ∀ e : StreamType, enum_value e ≠ s) ∨
  (d !! "volume_normalization_mode" = Some (VStr s) ∧
     ∀ e : VolumeNormalizationMode, enum_value e ≠ s) →
  ∃ e, (from_dict now d : result Details) = Raise e ∧ is_decode_error e = true.
Proof.
  intros Hbad. unfold from_dict.
  destruct Hbad as [[Hd Hs] | [[Hd Hs] | [Hd Hs]]].
  - rewrite (defaulted_unknown (E:=MediaType) _ _ _ Hd Hs). chase_raise.
  - rewrite (defaulted_unknown (E:=StreamType) _ _ _ Hd Hs). chase_raise.
  - rewrite (optional_unknown (E:=VolumeNormalizationMode) _ _ _ Hd Hs).
    chase_raise.
Qed.

(** *** The server-side entries of a mapping *)

Ltac invert_chain H :=
  repeat (let a := fresh "a" in
          let Ha := fresh "Hstep" in
          apply bind_Ok_inv in H as (a & Ha & H); cbv beta in H).

Lemma from_dict_server_fields now d r :
  from_dict now d = Ok r →
  path r = default VNone (d !! "path") ∧
  data r = default VNone (d !! "data") ∧
  extra_input_args r = default (VList []) (d !! "extra_input_args") ∧
  decryption_key r = default VNone (d !! "decryption_key") ∧
  allow_seek r = default (VBool false) (d !! "allow_seek") ∧
  can_seek r = default (VBool false) (d !! "can_seek") ∧
  enable_cache r = default VNone (d !! "enable_cache") ∧
  fade_in r = default (VBool false) (d !! "fade_in") ∧
  seek_position r = default (VInt 0) (d !! "seek_position") ∧
  queue_id r = default VNone (d !! "queue_id") ∧
  seconds_streamed r = default VNone (d !! "seconds_streamed") ∧
  stream_error r = default VNone (d !! "stream_error") ∧
  cache r = default VNone (d !! "cache") ∧
  created_at r = default (VDatetime now) (d !! "created_at").
Proof.
  intros H. unfold from_dict in H. invert_chain H.
  unfold StreamDetails_init in H. simpl in H. injection H as <-.
  by repeat split.
Qed.

Lemma server_only_not_public k key :
  k ∈ server_only → key ∈ public_keys → k ≠ key.
Proof.
  intros Hk Hkey ->.
  assert (Forall (λ x, x ∉ public_keys) server_only) as Hall.
  { apply (bool_decide_unpack _). by vm_compute. }
  by apply (proj1 (Forall_forall _ _) Hall key).
Qed.

Lemma from_dict_agree now d d' :
  Forall (λ key, d' !! key = d !! key) public_keys →
  is_Ok (from_dict now d : result Details) →
  is_Ok (from_dict now d' : result Details).
Proof.
  intros Hag [r H]. unfold public_keys in Hag.
  repeat (apply Forall_cons in Hag as [? Hag]).
  unfold from_dict, required, defaulted, optional in *.
  repeat match goal with E : d' !! _ = d !! _ |- _ => rewrite E; clear E end.
  repeat (let a := fresh "a" in
          let Ha := fresh "Hstep" in
          apply bind_Ok_inv in H as (a & Ha & H); cbv beta in H;
          rewrite Ha, bind_Ok; cbv beta).
  unfold StreamDetails_init. simpl. by eexists.
Qed.

(** C8: the entry of a mapping for a server-side field is the value of that
    field in the record that [from_dict] returns, whatever object it is; and
    putting any object under such a name into a mapping that is decoded
    gives a mapping that is decoded. *)
Theorem server_only_entries_pass_through now d k v :
  k ∈ server_only →
  (∀ r : Details, from_dict now d = Ok r → d !! k = Some v →
                  server_field k r = Some v) ∧
  (is_Ok (from_dict now d : result Details) →
   ∃ r : Details, from_dict now (<[k := v]> d) = Ok r ∧
                  server_field k r = Some v).
Proof.
  intros Hk.
  assert (∀ (d0 : pydict) (r : Details),
            from_dict now d0 = Ok r → d0 !! k = Some v →
            server_field k r = Some v) as Hpass.
  { intros d0 r Hr Hv.
    destruct (from_dict_server_fields _ _ _ Hr)
      as (?&?&?&?&?&?&?&?&?&?&?&?&?&?).
    unfold server_only in Hk. rewrite !elem_of_cons, elem_of_nil in Hk.
    unfold server_field.
    repeat (destruct Hk as [-> | Hk];
            [repeat case_decide; try done; f_equal;
             match goal with E : _ = default _ (d0 !! _) |- _ =>
               rewrite Hv in E; exact E end|]).
    done. }
  split; [apply Hpass|].
  intros Hok.
  destruct (from_dict_agree now d (<[k := v]> d)) as [r Hr]; [|done|].
  - apply Forall_forall. intros key Hkey.
    apply lookup_insert_ne. by apply server_only_not_public.
  - exists r. split; [done|]. apply (Hpass _ _ Hr). apply lookup_insert_eq.
Qed.

(** *** Decoding what [to_dict] returns *)

Lemma required_Some f d v : d !! f = Some v → required f d = Ok v.
Proof. intros Hd. unfold required. by rewrite Hd. Qed.

Lemma defaulted_Some {A} f (unpack : pyobj → option A) d v a :
  d !! f = Some v → unpack v = Some a → defaulted f unpack d = Ok (Some a).
Proof. intros Hd Hv. unfold defaulted. by rewrite Hd, Hv. Qed.

Lemma optional_packed {A} f (unpack : pyobj → option A) (pack : A → pyobj) o d :
  d !! f = Some (pack_opt pack o) →
  (∀ a, pack a ≠ VNone) →
  (∀ a, unpack (pack a) = Some a) →
  optional f unpack d = Ok (Some o).
Proof.
  intros Hd Hpack Hun. unfold optional. rewrite Hd.
  destruct o as [a|]; simpl; [|done].
  specialize (Hpack a). specialize (Hun a).
  destruct (pack a); try done; by rewrite Hun.
Qed.

Lemma typed_opt_str_packed f (o : option string) :
  typed_opt_str f (Some (pack_opt VStr o : pyobj)) = Ok (Some o).
Proof. by destruct o. Qed.

Lemma unpack_dsp_packed (m : gmap string DSPDetails) :
  round_trips pyfloat DSPDetails →
  unpack_dsp (VDict (to_dict_of <$> m)) = Some m.
Proof.
  intros Hrt. unfold unpack_dsp. rewrite bool_decide_eq_true_2.
  - f_equal. apply map_eq. intros i.
    rewrite lookup_omap, lookup_fmap.
    destruct (m !! i) as [x|]; simpl; [apply Hrt | done].
  - intros i x. rewrite lookup_fmap.
    destruct (m !! i) as [y|]; simpl; [|done].
    intros [= <-]. rewrite Hrt. by eexists.
Qed.

Lemma optional_packed_at {A} f (unpack : pyobj → option A) (pack : A → pyobj)
    o d :
  d !! f = Some (pack_opt pack o) →
  (∀ a, pack a ≠ VNone) →
  (∀ a, o = Some a → unpack (pack a) = Some a) →
  optional f unpack d = Ok (Some o).
Proof.
  intros Hd Hpack Hun. unfold optional. rewrite Hd.
  destruct o as [a|]; simpl; [|done].
  specialize (Hpack a). specialize (Hun a eq_refl).
  destruct (pack a); try done; by rewrite Hun.
Qed.

Lemma unpack_dsp_packed_at (m : gmap string DSPDetails) :
  (∀ k x, m !! k = Some x → from_dict_of (to_dict_of x) = Some x) →
  unpack_dsp (VDict (to_dict_of <$> m)) = Some m.
Proof.
  intros Hrt. unfold unpack_dsp. rewrite bool_decide_eq_true_2.
  - f_equal. apply map_eq. intros i.
    rewrite lookup_omap, lookup_fmap.
    destruct (m !! i) as [x|] eqn:Hi; simpl; [by apply (Hrt i) | done].
  - intros i x. rewrite lookup_fmap.
    destruct (m !! i) as [y|] eqn:Hi; simpl; [|done].
    intros [= <-]. rewrite (Hrt i y Hi). by eexists.
Qed.

(** What [from_dict] returns for the mapping of [r], where the
    [audio_format] of [r] and the values of its [dsp] decode what they
    encode. *)
Lemma from_dict_wire_at now r st' :
  from_dict_of (to_dict_of (audio_format r)) = Some (audio_format r) →
  (∀ m k x, dsp r = Some m → m !! k = Some x →
            from_dict_of (to_dict_of x) = Some x) →
  enum_lookup (legacy (enum_value (stream_type r))) = Some st' →
  ∃ r' : Details,
    from_dict now (wire r) = Ok r' ∧
    same_public_but_stream_type r' r ∧ stream_type r' = st'.
Proof.
  intros Haf Hdsp Hst.
  assert (∀ m, dsp r = Some m →
               unpack_dsp (VDict (to_dict_of <$> m)) = Some m) as Hdsp'.
  { intros m Hm. apply unpack_dsp_packed_at. intros k x. by apply Hdsp. }
  unfold from_dict.
  rewrite (required_Some "provider" _ (VStr (provider r))) by lookup_in_wire.
  rewrite (required_Some "item_id" _ (VStr (item_id r))) by lookup_in_wire.
  rewrite (required_Some "audio_format" _ (to_dict_of (audio_format r)))
    by lookup_in_wire.
  rewrite !bind_Ok, Haf. unfold field_try. rewrite bind_Ok.
  rewrite (defaulted_Some "media_type" _ _ (VStr (enum_value (media_type r)))
             (media_type r)) by first [lookup_in_wire | apply enum_lookup_value].
  rewrite (defaulted_Some "stream_type" _ _
             (VStr (legacy (enum_value (stream_type r)))) st')
    by first [lookup_in_wire | apply Hst].
  rewrite (optional_packed "duration" _ VInt (duration r))
    by first [lookup_in_wire | done | apply py_int_int].
  rewrite (optional_packed "size" _ VInt (size r))
    by first [lookup_in_wire | done | apply py_int_int].
  rewrite (optional_packed "loudness" _ VFloat (loudness r))
    by first [lookup_in_wire | done | apply py_float_float].
  rewrite (optional_packed "loudness_album" _ VFloat (loudness_album r))
    by first [lookup_in_wire | done | apply py_float_float].
  rewrite (optional_packed "volume_normalization_mode" _
             (λ e, VStr (enum_value e)) (volume_normalization_mode r))
    by first [lookup_in_wire | done | intros ?; apply enum_lookup_value].
  rewrite (optional_packed "volume_normalization_gain_correct" _ VFloat
             (volume_normalization_gain_correct r))
    by first [lookup_in_wire | done | apply py_float_float].
  rewrite (optional_packed "target_loudness" _ VFloat (target_loudness r))
    by first [lookup_in_wire | done | apply py_float_float].
  rewrite (optional_packed_at "dsp" _ (λ m, VDict (to_dict_of <$> m)) (dsp r))
    by first [lookup_in_wire | done | apply Hdsp'].
  rewrite !bind_Ok. simpl typed_str. rewrite !bind_Ok.
  replace (wire r !! "stream_title")
    with (Some (pack_opt VStr (stream_title r) : pyobj))
    by (symmetry; lookup_in_wire).
  rewrite typed_opt_str_packed, bind_Ok.
  replace (wire r !! "prefer_album_loudness")
    with (Some (VBool (prefer_album_loudness r) : pyobj))
    by (symmetry; lookup_in_wire).
  replace (wire r !! "strip_silence_begin")
    with (Some (VBool (strip_silence_begin r) : pyobj))
    by (symmetry; lookup_in_wire).
  replace (wire r !! "strip_silence_end")
    with (Some (VBool (strip_silence_end r) : pyobj))
    by (symmetry; lookup_in_wire).
  simpl typed_opt_bool. rewrite !bind_Ok.
  unfold StreamDetails_init. cbv beta iota.
  eexists. split; [reflexivity|]. by repeat split.
Qed.


Lemma from_dict_wire now r st' :
  round_trips pyfloat AudioFormat →
  round_trips pyfloat DSPDetails →
  enum_lookup (legacy (enum_value (stream_type r))) = Some st' →
  ∃ r' : Details,
    from_dict now (wire r) = Ok r' ∧
    same_public_but_stream_type r' r ∧ stream_type r' = st'.
Proof.
  intros Haf Hdsp. apply from_dict_wire_at; [apply Haf|].
  intros m k x _ _. apply Hdsp.
Qed.

(** C1, as the code has it: where the [audio_format] of the record and the
    values of its [dsp] decode what they encode, [to_dict] followed by
    [from_dict] gives a record with the client-facing fields of the original
    other than [stream_type]; the [stream_type] is the original one when its
    value contains neither "cache" nor "multi_file", and [LOCAL_FILE] when it
    is [CACHE] or [MULTI_FILE]. *)
Theorem round_trip_up_to_legacy_stream_type now r :
  from_dict_of (to_dict_of (audio_format r)) = Some (audio_format r) →
  (∀ m k x, dsp r = Some m → m !! k = Some x →
            from_dict_of (to_dict_of x) = Some x) →
  stream_type r = CACHE ∨ stream_type r = MULTI_FILE ∨
    (PyStr.contains "cache" (enum_value (stream_type r)) = false ∧
     PyStr.contains "multi_file" (enum_value (stream_type r)) = false) →
  ∃ d (r' : Details),
    to_dict r = Ok d ∧ from_dict now d = Ok r' ∧
    same_public_but_stream_type r' r ∧
    stream_type r' =
      if decide (stream_type r = CACHE ∨ stream_type r = MULTI_FILE)
      then LOCAL_FILE else stream_type r.
Proof.
  intros Haf Hdsp Hst.
  assert (enum_lookup (legacy (enum_value (stream_type r)))
          = Some (if decide (stream_type r = CACHE ∨ stream_type r = MULTI_FILE)
                  then LOCAL_FILE else stream_type r)) as Hlookup.
  { case_decide as Hint.
    - assert (legacy (enum_value (stream_type r)) = "local_file") as ->.
      { destruct Hint as [-> | ->];
          [rewrite CACHE_value | rewrite MULTI_FILE_value]; reflexivity. }
      rewrite <- LOCAL_FILE_value. apply enum_lookup_value.
    - destruct Hst as [? | [? | [Hc Hm]]]; [by destruct Hint; auto..|].
      rewrite legacy_absent by done. apply enum_lookup_value. }
  destruct (from_dict_wire_at now r _ Haf Hdsp Hlookup)
    as (r' & Hr' & Hsame & Hst').
  exists (wire r), r'. by rewrite to_dict_eq.
Qed.

(** *** Further properties of serialization *)

(** X1: whatever the record, the [stream_type] entry that [to_dict] returns
    is a string with no occurrence of "cache" and none of "multi_file". *)
Theorem sent_stream_type_has_no_internal_name r :
  ∃ d s, to_dict r = Ok d ∧ d !! "stream_type" = Some (VStr s) ∧
         PyStr.contains "cache" s = false ∧
         PyStr.contains "multi_file" s = false.
Proof.
  exists (wire r), (legacy (enum_value (stream_type r))).
  split; [apply to_dict_eq|]. split; [apply wire_stream_type|].
  apply legacy_clean.
Qed.

(** X2: the mapping that [to_dict] returns has an entry exactly for the
    seventeen client-facing fields, also for those that hold [None]. *)
Theorem to_dict_has_exactly_the_public_keys r :
  ∃ d, to_dict r = Ok d ∧
       ∀ k, is_Some (d !! k) ↔
            k ∈ ["provider"; "item_id"; "audio_format"; "media_type";
                 "stream_type"; "duration"; "size"; "stream_title";
                 "loudness"; "loudness_album"; "prefer_album_loudness";
                 "volume_normalization_mode";
                 "volume_normalization_gain_correct"; "target_loudness";
                 "strip_silence_begin"; "strip_silence_end"; "dsp"].
Proof.
  exists (wire r). split; [apply to_dict_eq|]. intros k.
  rewrite <- elem_of_dom. unfold wire, packed.
  rewrite !dom_insert_L, dom_empty_L.
  rewrite !elem_of_union, !elem_of_singleton, elem_of_empty.
  rewrite !elem_of_cons, elem_of_nil. tauto.
Qed.

(** X3: on a mapping without an entry for [stream_type],
    [__post_serialize__] raises [KeyError]. *)
Theorem post_serialize_needs_stream_type (fr : Frames) :
  fr_dict fr !! "stream_type" = None →
  __post_serialize__ fr = Raise (KeyError "stream_type").
Proof.
  intros Hd. unfold __post_serialize__, mbind, M_bind, getitem. by rewrite Hd.
Qed.

Lemma post_serialize_on_string (fr : Frames) s :
  fr_dict fr !! "stream_type" = Some (VStr s) →
  __post_serialize__ fr =
    Ok (<["stream_type" := VStr (legacy s)]> (fr_dict fr),
        Frame (fr_self fr) (<["stream_type" := VStr (legacy s)]> (fr_dict fr))).
Proof.
  intros Hd.
  unfold __post_serialize__, mbind, M_bind, getitem, setitem, return_dict.
  rewrite Hd. cbn [call_replace mret M_ret fr_dict fr_self].
  rewrite lookup_insert_eq. cbn [call_replace mret M_ret fr_dict fr_self].
  by rewrite insert_insert_eq.
Qed.

(** X4: on a mapping whose entry for [stream_type] is a string,
    [__post_serialize__] returns the mapping with that entry rewritten and
    every other entry as it was, and a second run on what it returns changes
    nothing. *)
Theorem post_serialize_touches_one_entry (fr : Frames) s :
  fr_dict fr !! "stream_type" = Some (VStr s) →
  ∃ d' fr',
    __post_serialize__ fr = Ok (d', fr') ∧
    fr_dict fr' = d' ∧
    d' !! "stream_type" = Some (VStr (legacy s)) ∧
    (∀ k, k ≠ "stream_type" → d' !! k = fr_dict fr !! k) ∧
    __post_serialize__ fr' = Ok (d', fr').
Proof.
  intros Hd. eexists _, _.
  split; [by apply post_serialize_on_string|].
  split; [done|]. split; [apply lookup_insert_eq|].
  split; [intros k Hk; by apply lookup_insert_ne|].
  rewrite (post_serialize_on_string _ (legacy s)) by apply lookup_insert_eq.
  cbn [fr_dict fr_self]. by rewrite legacy_idempotent, insert_insert_eq.
Qed.

(** X10: records that compare equal have the same [uri] and are serialized
    to the same mapping. *)
Theorem equal_records_serialize_alike (a b : Details) :
  StreamDetails_eq a b = true → uri a = uri b ∧ to_dict a = to_dict b.
Proof.
  intros Heq. apply bool_decide_eq_true in Heq.
  unfold compare_fields in Heq. injection Heq as ?????????????????.
  split.
  - unfold uri. congruence.
  - rewrite !to_dict_eq. f_equal. unfold wire, packed. congruence.
Qed.

(** *** Further properties of deserialization *)

(** X5: a mapping that lacks the entry of a mandatory field is refused with
    [MissingField] for the first such field in the order [provider],
    [item_id], [audio_format]. *)
Theorem from_dict_missing_mandatory_entry now d :
  (d !! "provider" = None →
   (from_dict now d : result Details) = Raise (MissingField "provider")) ∧
  (is_Some (d !! "provider") → d !! "item_id" = None →
   (from_dict now d : result Details) = Raise (MissingField "item_id")) ∧
  (is_Some (d !! "provider") → is_Some (d !! "item_id") →
   d !! "audio_format" = None →
   (from_dict now d : result Details) = Raise (MissingField "audio_format")).
Proof.
  unfold from_dict, required. split; [|split].
  - by intros ->.
  - by intros [? ->] ->.
  - by intros [? ->] [? ->] ->.
Qed.

Lemma bind_raise_inv {A B} (x : result A) (k : A → result B) (e : exn) :
  x ≫= k = Raise e → x = Raise e ∨ ∃ a, x = Ok a ∧ k a = Raise e.
Proof.
  destruct x as [a|e'|f]; intros H; unfold mbind, result_bind in H.
  - right. by exists a.
  - left. by injection H as ->.
  - discriminate H.
Qed.

Lemma decodes_raise {A} (x : result A) (e : exn) :
  decodes x → x = Raise e → is_decode_error e = true.
Proof. by intros Hx ->. Qed.

(** X6: the only exceptions that [from_dict] raises are the decode errors
    [MissingField] and [InvalidFieldValue]. *)
Theorem from_dict_raises_decode_errors_only now d (e : exn) :
  (from_dict now d : result Details) = Raise e → is_decode_error e = true.
Proof.
  unfold from_dict. intros H.
  repeat (apply bind_raise_inv in H as [H | (? & _ & H)];
          [by eapply decodes_raise; [|exact H]; auto with frame_db|];
          cbv beta in H).
  repeat (apply bind_raise_inv in H as [H | (? & _ & H)];
          [unfold typed_str, typed_opt_str, typed_opt_bool in H;
           repeat case_match; done|];
          cbv beta in H).
  done.
Qed.

(** X12: where a mapping that is decoded has no entry for a client-facing
    field with a default, the record has the default of the declaration. *)
Theorem from_dict_defaults now d (r : Details) :
  from_dict now d = Ok r →
  (d !! "media_type" = None → media_type r = TRACK) ∧
  (d !! "stream_type" = None → stream_type r = CUSTOM) ∧
  (d !! "duration" = None → duration r = None) ∧
  (d !! "size" = None → size r = None) ∧
  (d !! "stream_title" = None → stream_title r = None) ∧
  (d !! "loudness" = None → loudness r = None) ∧
  (d !! "loudness_album" = None → loudness_album r = None) ∧
  (d !! "prefer_album_loudness" = None → prefer_album_loudness r = false) ∧
  (d !! "volume_normalization_mode" = None →
   volume_normalization_mode r = None) ∧
  (d !! "volume_normalization_gain_correct" = None →
   volume_normalization_gain_correct r = None) ∧
  (d !! "target_loudness" = None → target_loudness r = None) ∧
  (d !! "strip_silence_begin" = None → strip_silence_begin r = false) ∧
  (d !! "strip_silence_end" = None → strip_silence_end r = false) ∧
  (d !! "dsp" = None → dsp r = None).
Proof.
  intros H. unfold from_dict in H. invert_chain H.
  unfold StreamDetails_init in H. simpl in H. injection H as <-.
  unfold defaulted, optional in *. simpl.
  repeat split; intros Hnone; rewrite Hnone in *;
    cbn [typed_opt_bool typed_opt_str] in *; by simplify_eq.
Qed.

Lemma defaulted_enum_value {E} `{!StrEnum E} f d s (o : option E) :
  d !! f = Some (VStr s) → defaulted f unpack_enum d = Ok o →
  ∃ e, o = Some e ∧ enum_value e = s.
Proof.
  intros Hd. unfold defaulted. rewrite Hd. simpl.
  destruct (enum_lookup s) as [e|] eqn:He; [|done].
  intros [= <-]. exists e. split; [done|]. by apply enum_lookup_Some.
Qed.

Lemma optional_enum_value {E} `{!StrEnum E} f d s (o : option (option E)) :
  d !! f = Some (VStr s) → optional f unpack_enum d = Ok o →
  ∃ e, o = Some (Some e) ∧ enum_value e = s.
Proof.
  intros Hd. unfold optional. rewrite Hd. simpl.
  destruct (enum_lookup s) as [e|] eqn:He; [|done].
  intros [= <-]. exists e. split; [done|]. by apply enum_lookup_Some.
Qed.

(** X13: in the record that [from_dict] returns, an enumeration field whose
    entry is the string [s] holds the member of the value [s]; the entry
    "cache" or "multi_file" of [stream_type] is taken as it is, and so is
    "local_file". *)
Theorem from_dict_enum_entries now d (r : Details) s :
  from_dict now d = Ok r →
  (d !! "media_type" = Some (VStr s) → enum_value (media_type r) = s) ∧
  (d !! "stream_type" = Some (VStr s) → enum_value (stream_type r) = s) ∧
  (d !! "volume_normalization_mode" = Some (VStr s) →
   ∃ e, volume_normalization_mode r = Some e ∧ enum_value e = s) ∧
  (d !! "stream_type" = Some (VStr "cache") → stream_type r = CACHE) ∧
  (d !! "stream_type" = Some (VStr "multi_file") → stream_type r = MULTI_FILE) ∧
  (d !! "stream_type" = Some (VStr "local_file") → stream_type r = LOCAL_FILE).
Proof.
  intros H. unfold from_dict in H.
  apply bind_Ok_inv in H as (v_provider & _ & H).
  apply bind_Ok_inv in H as (v_item_id & _ & H).
  apply bind_Ok_inv in H as (v_audio_format & _ & H).
  apply bind_Ok_inv in H as (a_audio_format & _ & H).
  apply bind_Ok_inv in H as (a3 & Hstep3 & H).
  apply bind_Ok_inv in H as (a4 & Hstep4 & H).
  do 2 apply bind_Ok_inv in H as (? & _ & H).
  do 2 apply bind_Ok_inv in H as (? & _ & H).
  apply bind_Ok_inv in H as (a9 & Hstep9 & H).
  invert_chain H.
  unfold StreamDetails_init in H. simpl in H. injection H as <-. simpl.
  assert (∀ s', d !! "stream_type" = Some (VStr s') →
                enum_value (default CUSTOM a4) = s') as Hst.
  { intros s' Hd.
    by destruct (defaulted_enum_value _ _ _ _ Hd Hstep4) as (e & -> & He). }
  split; [|split; [|split; [|split; [|split]]]].
  - intros Hd.
    by destruct (defaulted_enum_value _ _ _ _ Hd Hstep3) as (e & -> & He).
  - apply Hst.
  - intros Hd.
    destruct (optional_enum_value _ _ _ _ Hd Hstep9) as (e & -> & He).
    by exists e.
  - intros Hd. apply enum_value_inj. rewrite CACHE_value. by apply Hst.
  - intros Hd. apply enum_value_inj. rewrite MULTI_FILE_value. by apply Hst.
  - intros Hd. apply enum_value_inj. rewrite LOCAL_FILE_value. by apply Hst.
Qed.

(** X7: in the record that [from_dict] returns for what [to_dict] has
    returned, every server-side field has its default, whatever the original
    held, and [created_at] is the time of the decoding. *)
Theorem round_trip_resets_server_fields now r d (r' : Details) :
  to_dict r = Ok d → from_dict now d = Ok r' →
  path r' = VNone ∧ data r' = VNone ∧ extra_input_args r' = VList [] ∧
  decryption_key r' = VNone ∧ allow_seek r' = VBool false ∧
  can_seek r' = VBool false ∧ enable_cache r' = VNone ∧
  fade_in r' = VBool false ∧ seek_position r' = VInt 0 ∧
  queue_id r' = VNone ∧ seconds_streamed r' = VNone ∧
  stream_error r' = VNone ∧ cache r' = VNone ∧
  created_at r' = VDatetime now.
Proof.
  rewrite to_dict_eq. intros [= <-] Hr'.
  destruct (from_dict_server_fields _ _ _ Hr')
    as (->&->&->&->&->&->&->&->&->&->&->&->&->&->).
  pose proof (wire_server_only r) as Hnone. unfold server_only in Hnone.
  repeat (apply Forall_cons in Hnone as [-> Hnone]).
  by repeat split.
Qed.

(** X16: an entry under a name that is no field of the record has no
    influence on what [from_dict] returns. *)
Theorem from_dict_ignores_other_entries now d k (v : pyobj) :
  k ∉ public_keys → k ∉ server_only →
  (from_dict now (<[k := v]> d) : result Details) = from_dict now d.
Proof.
  unfold public_keys, server_only. intros Hpub Hsrv.
  rewrite !not_elem_of_cons in Hpub. rewrite !not_elem_of_cons in Hsrv.
  destruct_and!.
  unfold from_dict, required, defaulted, optional.
  by rewrite !lookup_insert_ne by done.
Qed.

(** *** Further properties of the round trip *)

Lemma from_dict_stream_type_value now d (r : Details) s :
  from_dict now d = Ok r → d !! "stream_type" = Some (VStr s) →
  enum_value (stream_type r) = s.
Proof.
  intros H Hd. unfold from_dict in H.
  do 5 apply bind_Ok_inv in H as (? & _ & H).
  apply bind_Ok_inv in H as (a4 & Hstep4 & H).
  invert_chain H.
  unfold StreamDetails_init in H. simpl in H. injection H as <-. simpl.
  by destruct (defaulted_enum_value _ _ _ _ Hd Hstep4) as (e & -> & He).
Qed.

Lemma from_dict_wire_inv now r (r' : Details) :
  round_trips pyfloat AudioFormat →
  round_trips pyfloat DSPDetails →
  from_dict now (wire r) = Ok r' →
  same_public_but_stream_type r' r ∧
  enum_value (stream_type r') = legacy (enum_value (stream_type r)).
Proof.
  intros Haf Hdsp Hr'.
  pose proof (from_dict_stream_type_value _ _ _ _ Hr' (wire_stream_type r))
    as Hv.
  destruct (from_dict_wire now r (stream_type r') Haf Hdsp)
    as (r'' & Hr'' & Hsame & _).
  { rewrite <- Hv. apply enum_lookup_value. }
  rewrite Hr' in Hr''. by injection Hr'' as <-.
Qed.

Lemma wire_ext (a b : Details) :
  same_public_but_stream_type a b →
  legacy (enum_value (stream_type a)) = legacy (enum_value (stream_type b)) →
  wire a = wire b.
Proof.
  intros (?&?&?&?&?&?&?&?&?&?&?&?&?&?&?&?) Hl.
  apply map_eq. intros k. unfold wire. rewrite Hl.
  destruct (decide (k = "stream_type")) as [-> | Hk];
    [by rewrite !lookup_insert_eq|].
  rewrite !(lookup_insert_ne _ "stream_type") by done.
  unfold packed. rewrite !lookup_insert.
  repeat case_decide; congruence.
Qed.

(** X8: where [AudioFormat] and [DSPDetails] decode what they encode, the
    record that [from_dict] returns for what [to_dict] has returned compares
    equal to the original exactly when the value of its [stream_type] is left
    as it is by the two rewrites; for [CACHE] and [MULTI_FILE] the two
    records do not compare equal. *)
Theorem round_trip_equal_iff_stream_type_kept now r d (r' : Details) :
  round_trips pyfloat AudioFormat →
  round_trips pyfloat DSPDetails →
  to_dict r = Ok d → from_dict now d = Ok r' →
  (StreamDetails_eq r' r = true ↔
     legacy (enum_value (stream_type r)) = enum_value (stream_type r)) ∧
  (stream_type r = CACHE ∨ stream_type r = MULTI_FILE →
   StreamDetails_eq r' r = false).
Proof.
  intros Haf Hdsp. rewrite to_dict_eq. intros [= <-] Hr'.
  destruct (from_dict_wire_inv _ _ _ Haf Hdsp Hr') as [Hsame Hv].
  assert (StreamDetails_eq r' r = true ↔
            legacy (enum_value (stream_type r)) = enum_value (stream_type r))
    as Hiff.
  { unfold StreamDetails_eq. rewrite bool_decide_eq_true.
    rewrite compare_fields_same_public. unfold same_public. split.
    - intros [_ Hst]. by rewrite <- Hv, Hst.
    - intros Hl. split; [done|]. apply enum_value_inj. by rewrite Hv. }
  split; [done|].
  intros Hst. apply not_true_iff_false. rewrite Hiff.
  destruct Hst as [-> | ->]; [rewrite CACHE_value | rewrite MULTI_FILE_value];
    discriminate.
Qed.

(** X9: where [AudioFormat] and [DSPDetails] decode what they encode,
    [to_dict] on the record that [from_dict] returns for a mapping that
    [to_dict] has returned gives that mapping again. *)
Theorem to_dict_after_round_trip now r d (r' : Details) :
  round_trips pyfloat AudioFormat →
  round_trips pyfloat DSPDetails →
  to_dict r = Ok d → from_dict now d = Ok r' →
  to_dict r' = Ok d.
Proof.
  intros Haf Hdsp. rewrite to_dict_eq. intros [= <-] Hr'.
  destruct (from_dict_wire_inv _ _ _ Haf Hdsp Hr') as [Hsame Hv].
  rewrite to_dict_eq. f_equal. apply wire_ext; [done|].
  by rewrite Hv, legacy_idempotent.
Qed.

(** X15: records that agree on the client-facing fields other than
    [stream_type], and whose [stream_type] is one of [LOCAL_FILE], [CACHE]
    and [MULTI_FILE], are serialized to the same mapping. *)
Theorem cached_and_local_file_serialize_alike (a b : Details) :
  same_public_but_stream_type a b →
  stream_type a = LOCAL_FILE ∨ stream_type a = CACHE ∨
    stream_type a = MULTI_FILE →
  stream_type b = LOCAL_FILE ∨ stream_type b = CACHE ∨
    stream_type b = MULTI_FILE →
  to_dict a = to_dict b.
Proof.
  intros Hsame Ha Hb. rewrite !to_dict_eq. f_equal. apply wire_ext; [done|].
  assert (∀ st : StreamType,
            st = LOCAL_FILE ∨ st = CACHE ∨ st = MULTI_FILE →
            legacy (enum_value st) = "local_file") as Hl.
  { intros st [-> | [-> | ->]];
      [rewrite LOCAL_FILE_value | rewrite CACHE_value
      | rewrite MULTI_FILE_value]; reflexivity. }
  by rewrite !Hl.
Qed.

Lemma pack_opt_inj {A} (pack : A → pyobj) (o1 o2 : option A) :
  (∀ x, pack x ≠ VNone) → (∀ x y, pack x = pack y → x = y) →
  pack_opt pack o1 = pack_opt pack o2 → o1 = o2.
Proof.
  intros Hne Hinj. destruct o1 as [x|], o2 as [y|]; simpl; intros H.
  - f_equal. by apply Hinj.
  - by destruct (Hne x).
  - by destruct (Hne y).
  - done.
Qed.

Lemma Ok_inj {A} (x y : A) : Ok x = Ok y → x = y.
Proof. by intros [= ->]. Qed.

Lemma wire_entries r :
  wire r !! "provider" = Some (VStr (provider r)) ∧
  wire r !! "item_id" = Some (VStr (item_id r)) ∧
  wire r !! "audio_format" = Some (to_dict_of (audio_format r)) ∧
  wire r !! "media_type" = Some (VStr (enum_value (media_type r))) ∧
  wire r !! "duration" = Some (pack_opt VInt (duration r)) ∧
  wire r !! "size" = Some (pack_opt VInt (size r)) ∧
  wire r !! "stream_title" = Some (pack_opt VStr (stream_title r)) ∧
  wire r !! "loudness" = Some (pack_opt VFloat (loudness r)) ∧
  wire r !! "loudness_album" = Some (pack_opt VFloat (loudness_album r)) ∧
  wire r !! "prefer_album_loudness" = Some (VBool (prefer_album_loudness r)) ∧
  wire r !! "volume_normalization_mode" =
    Some (pack_opt (λ e, VStr (enum_value e)) (volume_normalization_mode r)) ∧
  wire r !! "volume_normalization_gain_correct" =
    Some (pack_opt VFloat (volume_normalization_gain_correct r)) ∧
  wire r !! "target_loudness" = Some (pack_opt VFloat (target_loudness r)) ∧
  wire r !! "strip_silence_begin" = Some (VBool (strip_silence_begin r)) ∧
  wire r !! "strip_silence_end" = Some (VBool (strip_silence_end r)) ∧
  wire r !! "dsp" = Some (pack_opt (λ m, VDict (to_dict_of <$> m)) (dsp r)).
Proof. repeat split; lookup_in_wire. Qed.

(** X14: where [AudioFormat] and [DSPDetails] decode what they encode, two
    records that are serialized to the same mapping agree on every
    client-facing field other than [stream_type], and the values of their
    [stream_type] are rewritten to the same string. *)
Theorem to_dict_determines_public_fields (a b : Details) :
  round_trips pyfloat AudioFormat →
  round_trips pyfloat DSPDetails →
  to_dict a = to_dict b →
  same_public_but_stream_type a b ∧
  legacy (enum_value (stream_type a)) = legacy (enum_value (stream_type b)).
Proof.
  intros Haf Hdsp. rewrite !to_dict_eq. intros Hw. apply Ok_inj in Hw.
  assert (∀ x y : AudioFormat, to_dict_of x = to_dict_of y → x = y) as Haf_inj.
  { intros x y Hxy. apply (f_equal (from_dict_of (A:=AudioFormat))) in Hxy.
    rewrite !Haf in Hxy. by injection Hxy. }
  assert (∀ x y : gmap string DSPDetails,
            VDict (to_dict_of <$> x) = VDict (to_dict_of <$> y) → x = y)
    as Hdsp_inj.
  { intros x y Hxy. apply (f_equal unpack_dsp) in Hxy.
    rewrite !unpack_dsp_packed in Hxy by done. by injection Hxy. }
  pose proof (wire_stream_type a) as Hsa. rewrite Hw, wire_stream_type in Hsa.
  split; [|by injection Hsa].
  destruct (wire_entries a)
    as (A1&A2&A3&A4&A5&A6&A7&A8&A9&A10&A11&A12&A13&A14&A15&A16).
  rewrite Hw in A1, A2, A3, A4, A5, A6, A7, A8, A9, A10, A11, A12, A13, A14,
    A15, A16.
  destruct (wire_entries b)
    as (B1&B2&B3&B4&B5&B6&B7&B8&B9&B10&B11&B12&B13&B14&B15&B16).
  rewrite B1 in A1. rewrite B2 in A2. rewrite B3 in A3. rewrite B4 in A4.
  rewrite B5 in A5. rewrite B6 in A6. rewrite B7 in A7. rewrite B8 in A8.
  rewrite B9 in A9. rewrite B10 in A10. rewrite B11 in A11.
  rewrite B12 in A12. rewrite B13 in A13. rewrite B14 in A14.
  rewrite B15 in A15. rewrite B16 in A16.
  clear B1 B2 B3 B4 B5 B6 B7 B8 B9 B10 B11 B12 B13 B14 B15 B16 Hw Hsa.
  apply Some_inj in A1, A2, A3, A4, A5, A6, A7, A8, A9, A10, A11, A12, A13,
    A14, A15, A16.
  unfold same_public_but_stream_type.
  repeat split; symmetry.
  - by injection A1.
  - by injection A2.
  - by apply Haf_inj.
  - injection A4 as A4. by apply enum_value_inj.
  - apply pack_opt_inj in A5; [done..|congruence].
  - apply pack_opt_inj in A6; [done..|congruence].
  - apply pack_opt_inj in A7; [done..|congruence].
  - apply pack_opt_inj in A8; [done..|congruence].
  - apply pack_opt_inj in A9; [done..|congruence].
  - by injection A10.
  - apply pack_opt_inj in A11; [done|done|].
    intros x y [= Hxy]. by apply enum_value_inj.
  - apply pack_opt_inj in A12; [done..|congruence].
  - apply pack_opt_inj in A13; [done..|congruence].
  - by injection A14.
  - by injection A15.
  - apply pack_opt_inj in A16; [done|done|apply Hdsp_inj].
Qed.

(** *** Further properties of [uri] *)

Lemma append_separator_inj (c : Ascii.ascii) (a b x y : string) :
  has_char c a = false → has_char c b = false →
  a +:+ String c x = b +:+ String c y → a = b ∧ x = y.
Proof.
  revert b. induction a as [|c1 a IH]; intros [|c2 b]; simpl.
  - intros _ _ [= ->]. done.
  - intros _ [Hc _]%orb_false_iff [= <- _]. by rewrite Ascii.eqb_refl in Hc.
  - intros [Hc _]%orb_false_iff _ [= -> _]. by rewrite Ascii.eqb_refl in Hc.
  - intros [_ Ha]%orb_false_iff [_ Hb]%orb_false_iff [= -> Hrest].
    destruct (IH b Ha Hb Hrest) as [-> ->]. done.
Qed.

(** X11: for providers without ":" and media types whose value has no "/",
    records with one [uri] have the same provider, media type and item
    id. *)
Theorem uri_identifies_item (a b : Details) :
  has_char ":"%char (provider a) = false →
  has_char ":"%char (provider b) = false →
  has_char "/"%char (enum_value (media_type a)) = false →
  has_char "/"%char (enum_value (media_type b)) = false →
  uri a = uri b →
  provider a = provider b ∧ media_type a = media_type b ∧
  item_id a = item_id b.
Proof.
  intros Hpa Hpb Hma Hmb Huri. unfold uri in Huri.
  change ("://" +:+ ?x) with (String ":" (String "/" (String "/" x))) in Huri.
  apply append_separator_inj in Huri as [Hp Hrest]; [|done..].
  injection Hrest as Hrest.
  change ("/" +:+ ?x) with (String "/" x) in Hrest.
  apply append_separator_inj in Hrest as [Hm Hi]; [|done..].
  split; [done|]. split; [by apply enum_value_inj | done].
Qed.

End Properties.

(** ** The claims on concrete records *)

(** C1, as the claim states it, fails on the record for the provider
    "spotify" with [stream_type=StreamType.CACHE]: what [from_dict] returns
    for its [to_dict] has the [stream_type] [LOCAL_FILE], so the
    client-facing fields are not all those of the original. *)
Lemma round_trip_changes_cache_stream_type :
  let r0 := Sample.spotify Sample.ST_CACHE 7 in
  ∃ d (r' : Sample.Details),
    to_dict r0 = Ok d ∧ from_dict 9 d = Ok r' ∧
    stream_type r0 = Sample.ST_CACHE ∧
    stream_type r' = Sample.ST_LOCAL_FILE ∧
    ¬ same_public r' r0.
Proof.
  intros r0.
  destruct (from_dict_wire 9 r0 Sample.ST_LOCAL_FILE) as (r' & Hr' & _ & Hst).
  - intros []. reflexivity.
  - intros []. reflexivity.
  - reflexivity.
  - exists (wire r0), r'.
    split; [apply to_dict_eq|]. split; [exact Hr'|].
    split; [reflexivity|]. split; [exact Hst|].
    intros [_ Heq]. rewrite Hst in Heq. discriminate Heq.
Qed.

Lemma round_trip_up_to_legacy_stream_type_witness :
  ∃ d (r' : Sample.Details),
    to_dict (Sample.item "p" "i" Sample.ST_HLS 7) = Ok d ∧
    from_dict 9 d = Ok r' ∧
    same_public_but_stream_type r' (Sample.item "p" "i" Sample.ST_HLS 7) ∧
    stream_type r' = Sample.ST_HLS.
Proof.
  destruct (round_trip_up_to_legacy_stream_type 9
              (Sample.item "p" "i" Sample.ST_HLS 7))
    as (d & r' & Hd & Hr' & Hsame & Hst).
  - reflexivity.
  - intros m k [] _ _. reflexivity.
  - right. right. split; reflexivity.
  - exists d, r'. repeat split; solve [apply Hsame | assumption].
Defined.

Lemma internal_stream_type_sent_as_local_file_witness :
  ∃ d, to_dict (Sample.spotify Sample.ST_MULTI_FILE 7) = Ok d ∧
       d !! "stream_type" = Some (VStr "local_file").
Proof.
  apply (internal_stream_type_sent_as_local_file
           (Sample.spotify Sample.ST_MULTI_FILE 7)).
  right. reflexivity.
Defined.

Lemma uri_format_witness :
  uri (Sample.spotify Sample.ST_CUSTOM 7) = "spotify://track/123".
Proof.
  apply (proj2 (proj2 (uri_format (Sample.spotify Sample.ST_CUSTOM 7))));
    reflexivity.
Defined.

Lemma unknown_enum_value_raises_witness :
  ∃ e, (from_dict 9 (Sample.mapping (VStr "unknown_value") VNone)
        : result Sample.Details) = Raise e ∧ is_decode_error e = true.
Proof.
  apply (unknown_enum_value_raises 9 _ "unknown_value").
  right. left. split; [vm_compute; reflexivity|]. intros []; discriminate.
Defined.

Lemma init_checks_mandatory_fields_only_witness :
  is_Raise (StreamDetails_init 7 (no_kwargs : Sample.Kwargs)) ∧
  ∃ r, StreamDetails_init 7 (Sample.call_spotify Sample.ST_CUSTOM) = Ok r ∧
       can_seek r = VBool true ∧ allow_seek r = VBool false ∧
       duration r = None.
Proof.
  split.
  - apply (proj1 (init_checks_mandatory_fields_only 7 no_kwargs)).
    left. reflexivity.
  - destruct (proj2 (init_checks_mandatory_fields_only 7
                       (Sample.call_spotify Sample.ST_CUSTOM)))
      as (r & Hr & Hgiven); [by eexists..|].
    exists r. split; [exact Hr|].
    injection Hr as <-. repeat split; reflexivity.
Defined.

Lemma server_only_entries_pass_through_witness :
  ∃ r : Sample.Details,
    from_dict 9 (<["path" := VInt 5]> (Sample.mapping (VStr "hls") VNone))
    = Ok r ∧ server_field "path" r = Some (VInt 5).
Proof.
  apply (proj2 (server_only_entries_pass_through 9
                  (Sample.mapping (VStr "hls") VNone) "path" (VInt 5)
                  (list_elem_of_here _ _))).
  eexists. vm_compute. reflexivity.
Defined.

(** ** The further properties on concrete records *)

(** Without the condition on the provider, records with one [uri] can have
    different providers and item ids. *)
Example uri_shared_by_two_items :
  let a := Sample.item "p" "q://track/i" Sample.ST_CUSTOM 7 in
  let b := Sample.item "p://track/q" "i" Sample.ST_CUSTOM 7 in
  uri a = uri b ∧ provider a ≠ provider b ∧ item_id a ≠ item_id b.
Proof. by repeat split. Qed.

Lemma post_serialize_needs_stream_type_witness :
  __post_serialize__ (Frame (Sample.item "p" "i" Sample.ST_HLS 7) ∅)
  = Raise (KeyError "stream_type").
Proof.
  apply (post_serialize_needs_stream_type
           (Frame (Sample.item "p" "i" Sample.ST_HLS 7) ∅)).
  reflexivity.
Defined.

Lemma post_serialize_touches_one_entry_witness :
  let fr := Frame (Sample.item "p" "i" Sample.ST_HLS 7)
                  (<["stream_type" := VStr "cache"]> {[ "size" := VInt 5 ]}) in
  ∃ d' fr',
    __post_serialize__ fr = Ok (d', fr') ∧
    d' !! "stream_type" = Some (VStr "local_file") ∧
    d' !! "size" = Some (VInt 5) ∧
    __post_serialize__ fr' = Ok (d', fr').
Proof.
  intros fr.
  destruct (post_serialize_touches_one_entry fr "cache")
    as (d' & fr' & Hrun & _ & Hst & Hother & Hagain); [reflexivity|].
  exists d', fr'. split; [exact Hrun|]. split; [exact Hst|].
  split; [|exact Hagain]. rewrite Hother by discriminate. reflexivity.
Defined.

Lemma from_dict_raises_decode_errors_only_witness :
  is_decode_error (InvalidFieldValue "stream_type") = true.
Proof.
  apply (from_dict_raises_decode_errors_only
           (AudioFormat:=Sample.AudioFormat) (DSPDetails:=Sample.DSPDetails)
           (MediaType:=Sample.MediaType) (StreamType:=Sample.StreamType)
           (VolumeNormalizationMode:=Sample.VolumeNormalizationMode)
           9 (Sample.mapping (VStr "unknown_value") VNone)).
  vm_compute. reflexivity.
Defined.

Lemma round_trip_resets_server_fields_witness :
  let r := Sample.item "p" "i" Sample.ST_HLS 7 in
  ∃ d (r' : Sample.Details),
    to_dict r = Ok d ∧ from_dict 9 d = Ok r' ∧
    path r = VStr "/music/a.flac" ∧ path r' = VNone ∧
    seek_position r = VInt 30 ∧ seek_position r' = VInt 0 ∧
    created_at r = VDatetime 7 ∧ created_at r' = VDatetime 9.
Proof.
  intros r.
  destruct (from_dict_wire 9 r Sample.ST_HLS) as (r' & Hr' & _).
  { intros []. reflexivity. }
  { intros []. reflexivity. }
  { reflexivity. }
  destruct (round_trip_resets_server_fields 9 r (wire r) r' (to_dict_eq r) Hr')
    as (Hpath&_&_&_&_&_&_&_&Hseek&_&_&_&_&Hcreated).
  exists (wire r), r'.
  split; [apply to_dict_eq|]. split; [exact Hr'|]. by repeat split.
Defined.

Lemma round_trip_equal_iff_stream_type_kept_witness :
  let r := Sample.item "p" "i" Sample.ST_CACHE 7 in
  ∃ d (r' : Sample.Details),
    to_dict r = Ok d ∧ from_dict 9 d = Ok r' ∧ StreamDetails_eq r' r = false.
Proof.
  intros r.
  destruct (from_dict_wire 9 r Sample.ST_LOCAL_FILE) as (r' & Hr' & _).
  { intros []. reflexivity. }
  { intros []. reflexivity. }
  { reflexivity. }
  exists (wire r), r'.
  split; [apply to_dict_eq|]. split; [exact Hr'|].
  apply (round_trip_equal_iff_stream_type_kept 9 r (wire r) r').
  - intros []. reflexivity.
  - intros []. reflexivity.
  - apply to_dict_eq.
  - exact Hr'.
  - left. reflexivity.
Defined.

Lemma to_dict_after_round_trip_witness :
  let r := Sample.item "p" "i" Sample.ST_MULTI_FILE 7 in
  ∃ d (r' : Sample.Details),
    to_dict r = Ok d ∧ from_dict 9 d = Ok r' ∧
    stream_type r' = Sample.ST_LOCAL_FILE ∧ to_dict r' = Ok d.
Proof.
  intros r.
  destruct (from_dict_wire 9 r Sample.ST_LOCAL_FILE) as (r' & Hr' & _ & Hst).
  { intros []. reflexivity. }
  { intros []. reflexivity. }
  { reflexivity. }
  exists (wire r), r'.
  split; [apply to_dict_eq|]. split; [exact Hr'|]. split; [exact Hst|].
  apply (to_dict_after_round_trip 9 r (wire r) r').
  - intros []. reflexivity.
  - intros []. reflexivity.
  - apply to_dict_eq.
  - exact Hr'.
Defined.

Lemma equal_records_serialize_alike_witness :
  let a := Sample.item "p" "i" Sample.ST_HLS 7 in
  let b := Sample.spotify Sample.ST_HLS 8 in
  uri (with_server_fields a b) = uri a ∧
  to_dict (with_server_fields a b) = to_dict a.
Proof.
  intros a b.
  apply (equal_records_serialize_alike (with_server_fields a b) a).
  vm_compute. reflexivity.
Defined.

Lemma uri_identifies_item_witness :
  let a := Sample.item "p" "i" Sample.ST_HLS 7 in
  let b := Sample.item "p" "i" Sample.ST_CACHE 8 in
  provider a = provider b ∧ media_type a = media_type b ∧
  item_id a = item_id b.
Proof.
  intros a b. apply (uri_identifies_item a b); reflexivity.
Defined.

Lemma from_dict_defaults_witness :
  ∃ r : Sample.Details,
    from_dict 9 (Sample.mapping (VStr "hls") VNone) = Ok r ∧
    media_type r = Sample.MT_TRACK ∧ duration r = None ∧
    prefer_album_loudness r = false ∧ dsp r = None.
Proof.
  assert (∃ r : Sample.Details,
            from_dict 9 (Sample.mapping (VStr "hls") VNone) = Ok r)
    as [r Hr] by (eexists; vm_compute; reflexivity).
  destruct (from_dict_defaults 9 _ r Hr)
    as (Hmt&_&Hdur&_&_&_&_&Hprefer&_&_&_&_&_&Hdsp).
  exists r. split; [exact Hr|].
  split; [by apply Hmt|]. split; [by apply Hdur|].
  split; [by apply Hprefer | by apply Hdsp].
Defined.

Lemma from_dict_enum_entries_witness :
  ∃ r : Sample.Details,
    from_dict 9 (Sample.mapping (VStr "cache") VNone) = Ok r ∧
    stream_type r = Sample.ST_CACHE.
Proof.
  assert (∃ r : Sample.Details,
            from_dict 9 (Sample.mapping (VStr "cache") VNone) = Ok r)
    as [r Hr] by (eexists; vm_compute; reflexivity).
  exists r. split; [exact Hr|].
  by apply (from_dict_enum_entries 9 _ r "cache" Hr).
Defined.

Lemma to_dict_determines_public_fields_witness :
  let a := Sample.item "p" "i" Sample.ST_CACHE 7 in
  let b := Sample.item "p" "i" Sample.ST_LOCAL_FILE 8 in
  same_public_but_stream_type a b ∧
  legacy (enum_value (stream_type a)) = legacy (enum_value (stream_type b)).
Proof.
  intros a b.
  destruct (to_dict_determines_public_fields a b) as [Hsame Hlegacy].
  - intros []. reflexivity.
  - intros []. reflexivity.
  - rewrite !to_dict_eq. apply (f_equal Ok).
    apply wire_ext; [by repeat split | reflexivity].
  - split; [exact Hsame | exact Hlegacy].
Defined.

Lemma cached_and_local_file_serialize_alike_witness :
  to_dict (Sample.item "p" "i" Sample.ST_CACHE 7)
  = to_dict (Sample.item "p" "i" Sample.ST_LOCAL_FILE 8).
Proof.
  apply (cached_and_local_file_serialize_alike
           (Sample.item "p" "i" Sample.ST_CACHE 7)
           (Sample.item "p" "i" Sample.ST_LOCAL_FILE 8)).
  - by repeat split.
  - right. left. reflexivity.
  - left. reflexivity.
Defined.

Lemma from_dict_ignores_other_entries_witness :
  (from_dict 9 (<["comment" := VInt 1]> (Sample.mapping (VStr "hls") VNone))
   : result Sample.Details)
  = from_dict 9 (Sample.mapping (VStr "hls") VNone).
Proof.
  apply (from_dict_ignores_other_entries 9 _ "comment" (VInt 1)).
  - apply (bool_decide_unpack _). by vm_compute.
  - apply (bool_decide_unpack _). by vm_compute.
Defined.
